(** * BookMetrics Pro: the filter-and-aggregate pipeline of [app.py]

    A shallow embedding of the data pipeline of the dashboard script
    [app.py]: the loader/cleaner [load_data], the sidebar filters that
    produce [filtered_df], the KPI scalars, the top-N selections and the
    grouped aggregate tables.

    Conventions of the embedding.
    - A pandas [float64] cell is a binary64 value ([PrimFloat.float]); the
      missing value of a float column is NaN, as in pandas.
    - A cell of an [object] column holding text is an [option string]:
      [None] is the missing cell (NaN), [Some s] a Python [str].  The file is
      read with [encoding="latin1"], so a character is one byte and a Rocq
      [ascii] is one code point.
    - The three columns that the loader converts (["Rating"], ["price"] and
      ["id"]) hold [cell]s, which tell a [str] from a number: the loader
      behaves differently on a column that [pd.read_csv] typed numeric.
    - An [int64] cell is a [Z]; reductions wrap around at 64 bits.
    - A data frame is the list of its rows, in row order.  The code never
      reads the index labels, so they are not kept.
    - An exception that escapes a call is the [Raised] outcome of that call. *)

From Stdlib Require Import ZArith List String Ascii Bool Lia Floats.
From Stdlib Require Import Sorting.Permutation Sorting.Sorted.
From Stdlib Require Import Structures.OrderedTypeEx.
From Stdlib Require Import DecimalString DecimalN.
Import ListNotations.

Set Implicit Arguments.
Set Warnings "-inexact-float".  (* decimal literals such as 12.99 *)

(* ================================================================== *)
(** * Outcomes of calls that may raise *)

Inductive exn : Type :=
| AttributeError  (* the .str accessor of a column that holds no text *)
| ValueError      (* float()/int() given text it cannot parse, or NaN to int *)
| OverflowError.  (* a Python int that does not fit in int64 *)

Inductive outcome (A : Type) : Type :=
| Returned (a : A)
| Raised (e : exn).

Arguments Returned {A} a.
Arguments Raised {A} e.

Definition bind {A B} (m : outcome A) (k : A -> outcome B) : outcome B :=
  match m with
  | Returned a => k a
  | Raised e => Raised e
  end.

Notation "x <- m ;; k" := (bind m (fun x => k))
  (at level 61, m at next level, right associativity).

(** Element-wise conversion of a column: the first failing cell raises. *)
Fixpoint mapM {A B} (f : A -> outcome B) (l : list A) : outcome (list B) :=
  match l with
  | [] => Returned []
  | a :: l' => b <- f a ;; bs <- mapM f l' ;; Returned (b :: bs)
  end.

Definition is_raised {A} (m : outcome A) : bool :=
  match m with Raised _ => true | Returned _ => false end.

(* ================================================================== *)
(** * binary64 values *)

Module Float64.

Definition isna (x : float) : bool := PrimFloat.is_nan x.
Definition notna (x : float) : bool := negb (isna x).

(** Conversion of an integer to the nearest binary64 value (ties to even),
    as numpy does when an [int64] column meets a [float64] one. *)
Definition of_Z (z : Z) : float :=
  SF2Prim (binary_normalize prec emax z 0 false).

(** The binary64 value nearest to [(-1)^neg * m * 10^e]: what a correctly
    rounded decimal-to-binary conversion (Python's [float]) returns. *)
Definition of_decimal (neg : bool) (m : N) (e : Z) : float :=
  match m with
  | N0 => if neg then (-0)%float else 0%float
  | Npos p =>
      let '(num, den) :=
        if (0 <=? e)%Z then (Pos.mul p (Z.to_pos (10 ^ e)), 1%positive)
        else (p, Z.to_pos (10 ^ (- e))) in
      SF2Prim (SFdiv prec emax (S754_finite neg num 0) (S754_finite false den 0))
  end.

(** [numpy.rint]: the nearest integer, ties to even.  Below [2^52] in
    magnitude adding and subtracting [2^52] rounds to an integer; from
    [2^52] on every binary64 value is an integer (and NaN stays NaN). *)
Definition two52 : float := 4503599627370496%float.

Definition rint (x : float) : float :=
  if (abs x <? two52)%float then
    let r := ((abs x + two52) - two52)%float in
    if get_sign x then (- r)%float else r
  else x.

(** [round(x, 2)] on a numpy float: scale, [rint], unscale. *)
Definition round2 (x : float) : float := (rint (x * 100) / 100)%float.

(** ** Reductions of a whole column: numpy's pairwise summation

    [Series.sum] and [Series.mean] put [0.0] in place of the NaN cells and
    call [ndarray.sum], whose inner loop over a float array is numpy's
    [pairwise_sum]: fewer than 8 cells are added one after the other,
    starting from [-0.0]; up to 128 cells are added in eight interleaved
    running sums that are then combined; a longer array is cut in two
    near its middle, at a multiple of 8. *)

(** [r[j] += a[j]] for the eight running sums. *)
Fixpoint add_lanes (r a : list float) : list float :=
  match r, a with
  | x :: r', y :: a' => (x + y)%float :: add_lanes r' a'
  | _, _ => r
  end.

(** The unrolled loop: while eight cells or more are left they are added
    to the running sums.  The result is the sums and the cells left. *)
Fixpoint unrolled (fuel : nat) (r a : list float) : list float * list float :=
  match fuel with
  | O => (r, a)
  | S fuel' =>
      if (8 <=? List.length a)%nat
      then unrolled fuel' (add_lanes r (firstn 8 a)) (skipn 8 a)
      else (r, a)
  end.

(** A block of 8 to 128 cells. *)
Definition block_sum (a : list float) : float :=
  let '(r, rest) := unrolled (List.length a) (firstn 8 a) (skipn 8 a) in
  match r with
  | [r0; r1; r2; r3; r4; r5; r6; r7] =>
      fold_left PrimFloat.add rest
        (((r0 + r1) + (r2 + r3)) + ((r4 + r5) + (r6 + r7)))%float
  | _ => fold_left PrimFloat.add a (-0)%float
  end.

(** [pairwise_sum(a, n)].  Each call on more than 128 cells recurses on
    two shorter arrays, so a [fuel] of the number of cells is never used
    up. *)
Fixpoint pairwise_sum (fuel : nat) (a : list float) : float :=
  let n := List.length a in
  if (n <? 8)%nat then fold_left PrimFloat.add a (-0)%float
  else if (n <=? 128)%nat then block_sum a
  else
    match fuel with
    | O => block_sum a
    | S fuel' =>
        let n2 := (n / 2 - (n / 2) mod 8)%nat in
        (pairwise_sum fuel' (firstn n2 a) + pairwise_sum fuel' (skipn n2 a))%float
    end.

(** The column with [0.0] in place of its NaN cells. *)
Definition fill0 (xs : list float) : list float :=
  map (fun x => if isna x then 0%float else x) xs.

(** [ndarray.sum()]: [0.0] for an empty array; otherwise the reduction
    starts from [-0.0], which leaves every sum as it is, the sum [-0.0] of
    cells that are all [-0.0] included. *)
Definition ndarray_sum (xs : list float) : float :=
  match xs with
  | [] => 0%float
  | _ :: _ => (-0 + pairwise_sum (List.length xs) xs)%float
  end.

(** [Series.sum] of a float column: NaN cells count as [0.0], and the
    empty sum is [0.0]. *)
Definition sum (xs : list float) : float := ndarray_sum (fill0 xs).

(** [Series.mean] of a float column (pandas' own [nanmean]): the sum above
    divided by the number of cells that are present; NaN when no cell is
    present. *)
Definition mean (xs : list float) : float :=
  match filter notna xs with
  | [] => nan
  | present => (sum xs / of_Z (Z.of_nat (List.length present)))%float
  end.

(** ** Reductions of a group: compensated summation

    The ["sum"] and ["mean"] aggregations of a [groupby] run pandas'
    [group_sum] and [group_mean], which go through the rows of a group
    in row order, skip the NaN cells and carry a Kahan compensation along
    with the running sum; a compensation that comes out NaN (a cell was
    infinite) is reset to [0.0]. *)
Definition kahan_step (acc : float * float) (val : float) : float * float :=
  let '(sumx, compensation) := acc in
  let y := (val - compensation)%float in
  let t := (sumx + y)%float in
  let c := ((t - sumx) - y)%float in
  (t, if isna c then 0%float else c).

Definition kahan_sum (xs : list float) : float :=
  fst (fold_left kahan_step xs (0%float, 0%float)).

(** ["sum"] of a group: [0.0] when no cell is present ([min_count=0]). *)
Definition group_sum (xs : list float) : float :=
  kahan_sum (filter notna xs).

(** ["mean"] of a group: NaN when no cell is present. *)
Definition group_mean (xs : list float) : float :=
  match filter notna xs with
  | [] => nan
  | present =>
      (kahan_sum present / of_Z (Z.of_nat (List.length present)))%float
  end.

(** [Series.between(lo, hi)], both ends included. *)
Definition between (x lo hi : float) : bool :=
  ((lo <=? x) && (x <=? hi))%float.

End Float64.

(* ================================================================== *)
(** * int64 values *)

Module Int64.

Definition min_int : Z := - 2 ^ 63.
Definition max_int : Z := 2 ^ 63 - 1.

Definition in_range (z : Z) : bool := ((min_int <=? z) && (z <=? max_int))%Z.

(** Two's complement wrap-around of a mathematical integer. *)
Definition wrap (z : Z) : Z := ((z + 2 ^ 63) mod 2 ^ 64 - 2 ^ 63)%Z.

(** [Series.sum] of an [int64] column. *)
Definition sum (xs : list Z) : Z := wrap (fold_left Z.add xs 0%Z).

End Int64.

(* ================================================================== *)
(** * Python text operations used by the cleaning pipeline *)

Module Py.

Local Open Scope string_scope.
Local Open Scope char_scope.

Definition is_digit (c : ascii) : bool :=
  ((48 <=? nat_of_ascii c) && (nat_of_ascii c <=? 57))%nat.

(** The Latin-1 code points that [float()] and [int()] ignore at both ends
    of a [str]: the ASCII whitespace (tab, line feed, vertical tab, form
    feed, carriage return, space) and the two whitespace characters above
    127 (next line, no-break space), which the conversion turns into
    spaces first.  The separators 28 to 31, which [str.strip()] would take
    off, are not among them. *)
Definition is_space (c : ascii) : bool :=
  let n := nat_of_ascii c in
  (((9 <=? n) && (n <=? 13)) || (n =? 32) || (n =? 133) || (n =? 160))%nat.

Definition digit_val (c : ascii) : N := N.of_nat (nat_of_ascii c - 48).

Definition to_lower (c : ascii) : ascii :=
  let n := nat_of_ascii c in
  if ((65 <=? n) && (n <=? 90))%nat then ascii_of_nat (n + 32) else c.

Fixpoint lower (s : string) : string :=
  match s with
  | EmptyString => EmptyString
  | String c t => String (to_lower c) (lower t)
  end.

Fixpoint lstrip (s : string) : string :=
  match s with
  | EmptyString => EmptyString
  | String c t => if is_space c then lstrip t else s
  end.

Fixpoint rstrip (s : string) : string :=
  match s with
  | EmptyString => EmptyString
  | String c t =>
      match rstrip t with
      | EmptyString => if is_space c then EmptyString else String c EmptyString
      | t' => String c t'
      end
  end.

(** The text without the whitespace at its ends. *)
Definition strip (s : string) : string := rstrip (lstrip s).

(** [re.sub(r"[\$,]", "", s)]: every dollar sign and comma is removed. *)
Fixpoint remove_dollar_comma (s : string) : string :=
  match s with
  | EmptyString => EmptyString
  | String c t =>
      if (Ascii.eqb c "$" || Ascii.eqb c ",")%bool then remove_dollar_comma t
      else String c (remove_dollar_comma t)
  end.

(** [s.replace("#", "")]: every hash sign is removed. *)
Fixpoint remove_hash (s : string) : string :=
  match s with
  | EmptyString => EmptyString
  | String c t =>
      if Ascii.eqb c "#" then remove_hash t else String c (remove_hash t)
  end.

(** The longest run of decimal digits at the head of [s], and the rest. *)
Fixpoint span_digits (s : string) : string * string :=
  match s with
  | String c t =>
      if is_digit c then let '(d, r) := span_digits t in (String c d, r)
      else (EmptyString, s)
  | EmptyString => (EmptyString, EmptyString)
  end.

(** The match of [\d+\.\d+] anchored at the head of [s], if there is one.
    [\d+] is greedy and cannot give digits back to a pattern that goes on
    with a dot, so the integer part is the whole run of digits. *)
Definition match_decimal_here (s : string) : option string :=
  match span_digits s with
  | (EmptyString, _) => None
  | (ip, String "." r) =>
      match span_digits r with
      | (EmptyString, _) => None
      | (fp, _) => Some (ip ++ String "." fp)%string
      end
  | _ => None
  end.

(** [re.search(r"(\d+\.\d+)", s)]: the leftmost match, group 1. *)
Fixpoint search_decimal (s : string) : option string :=
  match match_decimal_here s with
  | Some m => Some m
  | None =>
      match s with
      | EmptyString => None
      | String _ t => search_decimal t
      end
  end.

(** Underscores in a numeric literal: each one must stand between two
    digits; they are dropped.  [prev] tells whether the character before
    the head of [s] is a digit. *)
Fixpoint drop_underscores (prev : bool) (s : string) : option string :=
  match s with
  | EmptyString => Some EmptyString
  | String c t =>
      if Ascii.eqb c "_" then
        match t with
        | String d _ =>
            if (prev && is_digit d)%bool then drop_underscores false t else None
        | EmptyString => None
        end
      else option_map (String c) (drop_underscores (is_digit c) t)
  end.

Definition take_sign (s : string) : bool * string :=
  match s with
  | String "-" t => (true, t)
  | String "+" t => (false, t)
  | _ => (false, s)
  end.

Fixpoint all_digits (s : string) : bool :=
  match s with
  | EmptyString => true
  | String c t => (is_digit c && all_digits t)%bool
  end.

(** The number a run of decimal digits denotes, most significant first. *)
Fixpoint digits_value (acc : N) (s : string) : N :=
  match s with
  | EmptyString => acc
  | String c t => digits_value (acc * 10 + digit_val c) t
  end.

(** The exponent part of a float literal: nothing, or [e]/[E], an optional
    sign and at least one digit, up to the end of the text. *)
Definition exponent (s : string) : option Z :=
  match s with
  | EmptyString => Some 0%Z
  | String c t =>
      if (Ascii.eqb c "e" || Ascii.eqb c "E")%bool then
        let '(neg, d) := take_sign t in
        match d with
        | EmptyString => None
        | _ =>
            if all_digits d then
              let v := Z.of_N (digits_value 0 d) in
              Some (if neg then (- v)%Z else v)
            else None
        end
      else None
  end.

(** [float(s)] for a [str]: surrounding whitespace is ignored; the literal
    is an optional sign followed by [inf], [infinity] or [nan] in any case,
    or by a decimal number with an optional fraction and exponent and at
    least one digit in its mantissa.  [None] stands for [ValueError]. *)
Definition float_of_str (s : string) : option float :=
  match drop_underscores false (strip s) with
  | None => None
  | Some s1 =>
      let '(neg, s2) := take_sign s1 in
      let w := lower s2 in
      if (String.eqb w "inf" || String.eqb w "infinity")%bool then
        Some (if neg then neg_infinity else infinity)
      else if String.eqb w "nan" then Some nan
      else
        let '(ip, r1) := span_digits s2 in
        let '(fp, r2) :=
          match r1 with
          | String "." r => span_digits r
          | _ => (EmptyString, r1)
          end in
        match (ip ++ fp)%string with
        | EmptyString => None
        | mant =>
            match exponent r2 with
            | None => None
            | Some e =>
                Some (Float64.of_decimal neg (digits_value 0 mant)
                        (e - Z.of_nat (String.length fp)))
            end
        end
  end.

(** [int(s)] for a [str], base ten: surrounding whitespace is ignored; an
    optional sign and at least one digit.  [None] stands for
    [ValueError]. *)
Definition int_of_str (s : string) : option Z :=
  let '(neg, s1) := take_sign (strip s) in
  match drop_underscores false s1 with
  | None => None
  | Some d =>
      match d with
      | EmptyString => None
      | _ =>
          if all_digits d then
            let v := Z.of_N (digits_value 0 d) in
            Some (if neg then (- v)%Z else v)
          else None
      end
  end.

End Py.

(* ================================================================== *)
(** * The data model *)

(** A parsed publishing date ([pandas.Timestamp]); [None] is [NaT]. *)
Record Timestamp : Type := mkTimestamp {
  ts_year : Z;
  ts_month : Z;
  ts_day : Z
}.

(** A cell of a column of the frame that [pd.read_csv] returns, for the
    columns whose type the loader depends on.  [pd.read_csv] types a
    column by its fields: a column in which every field reads as a number
    or is empty comes out numeric, and its cells are numbers or NaN, never
    [str]; a column with a field that does not read as a number comes out
    as [object], and its cells are the fields as [str], or NaN for an
    empty field.  So a field such as [4.5] is a [Number] cell when all the
    fields of its column are numbers, and a [Text] cell when its column
    also holds text such as ["4.5 out of 5 stars"].  A number is given by
    its [float64] value, which is what [astype(float)] makes of it. *)
Inductive cell : Type :=
| Missing               (* NaN: an empty field *)
| Text (s : string)     (* a str *)
| Number (x : float).   (* an int, a float or a bool *)

Definition is_text (c : cell) : bool :=
  match c with Text _ => true | _ => false end.

(** One line of ["best sellin books 2023.csv"] as [pd.read_csv] types it:
    the other text columns are [object] cells, ["reviews count"] is
    [int64] and ["Print Length"] is numeric. *)
Record raw_row : Type := mkRaw {
  raw_id : cell;
  raw_Book_name : option string;
  raw_Author : option string;
  raw_Rating : cell;
  raw_reviews_count : Z;
  raw_form : option string;
  raw_price : cell;
  raw_Reading_age : option string;
  raw_Print_Length : float;
  raw_Publishing_date : option string;
  raw_Genre : option string
}.

(** One row of the cleaned frame that [load_data] returns. *)
Record row : Type := mkRow {
  id : cell;
  Book_name : option string;
  Author : option string;
  Rating : float;
  reviews_count : Z;
  form : option string;
  price : float;
  Reading_age : string;
  Print_Length : float;
  Publishing_date : option Timestamp;
  Genre : option string;
  Rank : Z;
  Year : option Z;
  Month : option Z;
  Estimated_Revenue : float;
  Popularity_Score : float
}.

Definition DataFrame : Type := list row.

(** Cells of an [object] column. *)
Definition cell_notna {A} (c : option A) : bool :=
  match c with Some _ => true | None => false end.

(** [Series.isin(values)] on a text column, [values] a list of [str]. *)
Definition cell_isin (c : option string) (values : list string) : bool :=
  match c with
  | Some s => existsb (String.eqb s) values
  | None => false
  end.

(** [Series == value] on a text column: a missing cell equals nothing. *)
Definition cell_eqb (c : option string) (value : string) : bool :=
  match c with
  | Some s => String.eqb s value
  | None => false
  end.

(** [Series == value] on the ["Year"] column. *)
Definition year_eqb (c : option Z) (value : Z) : bool :=
  match c with
  | Some y => Z.eqb y value
  | None => false
  end.

(* ================================================================== *)
(** * Dataset loader and cleaner: [load_data] *)

Section Loader.

(** [numpy.log1p] on binary64 values. *)
Variable log1p : float -> float.

(** [pd.to_datetime(column, errors="coerce")] on one text cell: the first
    argument is the whole column, from which pandas may infer the date
    format; [None] is the cell that does not parse.  With
    [errors="coerce"] pandas documents that what it cannot parse is set to
    [NaT], and the result is taken to be a column of timestamps, of which
    [.dt.year] and [.dt.month] are read; dates that carry time zone
    offsets, which pandas may return otherwise, are outside the model. *)
Variable to_datetime_cell : list (option string) -> string -> option Timestamp.

(** The [.str] accessor of a column.  pandas gives it for a column that
    holds text and raises [AttributeError] ("Can only use .str accessor
    with string values") for a numeric one, which is what [pd.read_csv]
    makes of a column with lines but without any text, all its fields
    missing included.  The column of a file without lines is an empty
    [object] column, which has the accessor. *)
Definition str_accessor (column : list cell) : outcome unit :=
  match column with
  | [] => Returned tt
  | _ :: _ =>
      if existsb is_text column then Returned tt else Raised AttributeError
  end.

(** [.astype(float)] on one cell of an [object] column of text. *)
Definition astype_float_cell (c : option string) : outcome float :=
  match c with
  | None => Returned nan
  | Some s =>
      match Py.float_of_str s with
      | Some x => Returned x
      | None => Raised ValueError
      end
  end.

(** [Series.replace('[\$,]', '', regex=True)] on one cell: the
    substitution is made in a [str]; a number and NaN stay as they are. *)
Definition replace_dollar_comma (c : cell) : cell :=
  match c with
  | Text s => Text (Py.remove_dollar_comma s)
  | _ => c
  end.

(** [.astype(float)] on one cell of the price column, whatever its type:
    [float()] of a [str], the number itself, NaN for a missing cell. *)
Definition astype_float (c : cell) : outcome float :=
  match c with
  | Missing => Returned nan
  | Number x => Returned x
  | Text s =>
      match Py.float_of_str s with
      | Some x => Returned x
      | None => Raised ValueError
      end
  end.

(** [.astype(int)] on one cell of an [object] column: a missing cell is a
    float NaN, which has no integer value. *)
Definition astype_int_cell (c : option string) : outcome Z :=
  match c with
  | None => Raised ValueError
  | Some s =>
      match Py.int_of_str s with
      | None => Raised ValueError
      | Some z => if Int64.in_range z then Returned z else Raised OverflowError
      end
  end.

(** [Series.str.extract(r"(\d+\.\d+)")] on one cell: NaN when there is no
    match and for a cell that is not a [str]. *)
Definition str_extract_decimal (c : cell) : option string :=
  match c with
  | Text s => Py.search_decimal s
  | _ => None
  end.

(** [Series.str.replace("#", "")] on one cell: NaN for a cell that is not
    a [str]. *)
Definition str_replace_hash (c : cell) : option string :=
  match c with
  | Text s => Some (Py.remove_hash s)
  | _ => None
  end.

(** One cell under [errors="coerce"]: a missing cell and a cell that does
    not parse are both [NaT]. *)
Definition coerce_cell (column : list (option string)) (c : option string)
    : option Timestamp :=
  match c with
  | Some s => to_datetime_cell column s
  | None => None
  end.

(** [pd.to_datetime(column, errors="coerce")] *)
Definition to_datetime (column : list (option string)) : list (option Timestamp) :=
  map (coerce_cell column) column.

(** [Series.fillna("Not Specified")] on one cell. *)
Definition fillna_not_specified (c : option string) : string :=
  match c with
  | Some s => s
  | None => "Not Specified"%string
  end.

(** The cleaned row built from a raw line and its converted cells. *)
Definition clean_row (r : raw_row) (rating price : float) (rank : Z)
    (date : option Timestamp) : row :=
  {| id := raw_id r;
     Book_name := raw_Book_name r;
     Author := raw_Author r;
     Rating := rating;
     reviews_count := raw_reviews_count r;
     form := raw_form r;
     price := price;
     Reading_age := fillna_not_specified (raw_Reading_age r);
     Print_Length := raw_Print_Length r;
     Publishing_date := date;
     Genre := raw_Genre r;
     Rank := rank;
     Year := option_map ts_year date;
     Month := option_map ts_month date;
     Estimated_Revenue := (price * Float64.of_Z (raw_reviews_count r))%float;
     Popularity_Score :=
       (rating * log1p (Float64.of_Z (raw_reviews_count r)))%float |}.

(** The frame whose columns are the converted columns, row by row. *)
Fixpoint assemble (df : list raw_row) (rating price : list float)
    (rank : list Z) (dates : list (option Timestamp)) : DataFrame :=
  match df, rating, price, rank, dates with
  | r :: df', ra :: rating', p :: price', k :: rank', d :: dates' =>
      clean_row r ra p k d :: assemble df' rating' price' rank' dates'
  | _, _, _, _, _ => []
  end.

(** [load_data()].  The argument is what [pd.read_csv] gives: [None] when
    the file is not found, in which case the function returns [None].  The
    columns are converted one after the other, so a column without the
    [.str] accessor or a cell that does not convert raises before any
    frame is built. *)
Definition load_data (csv : option (list raw_row)) : outcome (option DataFrame) :=
  match csv with
  | None => Returned None
  | Some df =>
      _ <- str_accessor (map raw_Rating df) ;;
      rating <- mapM astype_float_cell
                  (map (fun r => str_extract_decimal (raw_Rating r)) df) ;;
      price <- mapM astype_float
                  (map (fun r => replace_dollar_comma (raw_price r)) df) ;;
      _ <- str_accessor (map raw_id df) ;;
      rank <- mapM astype_int_cell
                  (map (fun r => str_replace_hash (raw_id r)) df) ;;
      let dates := to_datetime (map raw_Publishing_date df) in
      Returned (Some (assemble df rating price rank dates))
  end.

End Loader.

(* ================================================================== *)
(** * Filter engine: the sidebar selection and [filtered_df] *)

(** What the ["Publication Year"] select box returns. *)
Inductive year_option : Type :=
| All_Years
| A_Year (y : Z).

(** The values of the sidebar widgets.  A multiselect returns the entries
    chosen among its options, which are the sentinel and the names found
    in the column. *)
Record selection : Type := mkSelection {
  genre_filter : list string;     (* st.multiselect("Genre", ...) *)
  author_filter : list string;    (* st.multiselect("Author", ...) *)
  price_range : float * float;    (* st.slider("Price Range ($)", ...) *)
  rating_filter : float;          (* st.slider("Minimum Rating", ...) *)
  format_filter : string;         (* st.selectbox("Format", ...) *)
  year_filter : year_option       (* st.selectbox("Publication Year", ...) *)
}.

(** ["All Genres" in genre_filter or len(genre_filter) == 0] *)
Definition all_selected (sentinel : string) (chosen : list string) : bool :=
  existsb (String.eqb sentinel) chosen || (List.length chosen =? 0)%nat.

Definition genre_mask (sel : selection) (r : row) : bool :=
  if all_selected "All Genres" (genre_filter sel)
  then cell_notna (Genre r)
  else cell_isin (Genre r) (genre_filter sel).

Definition author_mask (sel : selection) (r : row) : bool :=
  if all_selected "All Authors" (author_filter sel)
  then cell_notna (Author r)
  else cell_isin (Author r) (author_filter sel).

(** [filtered_df["Rating"] >= rating_filter] *)
Definition rating_mask (sel : selection) (r : row) : bool :=
  (rating_filter sel <=? Rating r)%float.

(** [filtered_df["price"].between(price_range[0], price_range[1])] *)
Definition price_mask (sel : selection) (r : row) : bool :=
  Float64.between (price r) (fst (price_range sel)) (snd (price_range sel)).

(** The four successive assignments to [filtered_df]. *)
Definition filtered_df (df : DataFrame) (sel : selection) : DataFrame :=
  let f1 := filter (fun r => genre_mask sel r && author_mask sel r) df in
  let f2 := filter (fun r => price_mask sel r && rating_mask sel r) f1 in
  let f3 := if negb (String.eqb (format_filter sel) "All Formats")
            then filter (fun r => cell_eqb (form r) (format_filter sel)) f2
            else f2 in
  match year_filter sel with
  | All_Years => f3
  | A_Year y => filter (fun r => year_eqb (Year r) y) f3
  end.

(* ================================================================== *)
(** * Aggregation engine *)

(** ** Scalar KPIs *)

Record KPIs : Type := mkKPIs {
  total_books : Z;
  avg_rating : float;
  total_reviews : Z;
  avg_price : float;
  total_revenue : float
}.

Definition kpis (fdf : DataFrame) : KPIs :=
  {| total_books := Z.of_nat (List.length fdf);
     avg_rating := Float64.round2 (Float64.mean (map Rating fdf));
     total_reviews := Int64.sum (map reviews_count fdf);
     avg_price := Float64.round2 (Float64.mean (map price fdf));
     total_revenue := Float64.sum (map Estimated_Revenue fdf) |}.

(** ** Top-N selections: [nlargest] *)

Section SelectN.

Variables (T A : Type).
Variable isna : A -> bool.
Variable ltb : A -> A -> bool.
Variable col : T -> A.

(** [x] goes in front of the first row whose value is not above its own,
    so it stays in front of the rows of equal value that followed it. *)
Fixpoint insert_desc (x : T) (l : list T) : list T :=
  match l with
  | [] => [x]
  | y :: l' => if ltb (col x) (col y) then y :: insert_desc x l' else x :: l
  end.

(** The rows in descending order of [col], by a stable sort.  pandas asks
    numpy for a stable sort of the negated column; a stable sort has one
    result only, computed here by insertion from the last row up. *)
Definition sort_desc (l : list T) : list T := fold_right insert_desc [] l.

(** [frame.nlargest(n, col)] with the default [keep="first"], as pandas
    documents it: the rows whose value is NaN are set aside, the others
    are sorted in descending order, the NaN rows follow, and the first
    [n] rows are returned. *)
Definition nlargest (n : nat) (l : list T) : list T :=
  firstn n (sort_desc (filter (fun r => negb (isna (col r))) l)
            ++ filter (fun r => isna (col r)) l).

End SelectN.

Definition Z_isna (_ : Z) : bool := false.

Definition top_reviews (fdf : DataFrame) : DataFrame :=
  nlargest Z_isna Z.ltb reviews_count 10 fdf.

Definition top_rated (fdf : DataFrame) : DataFrame :=
  nlargest Float64.isna PrimFloat.ltb Rating 10 fdf.

Definition top_revenue (fdf : DataFrame) : DataFrame :=
  nlargest Float64.isna PrimFloat.ltb Estimated_Revenue 10 fdf.

(** ** Grouped aggregates: [groupby(...).agg(...).reset_index()] *)

Section GroupBy.

Variable K : Type.
Variable K_eqb : K -> K -> bool.
Variable K_ltb : K -> K -> bool.
Variable key : row -> option K.

Fixpoint insert_key (k : K) (l : list K) : list K :=
  match l with
  | [] => [k]
  | k' :: l' =>
      if K_eqb k k' then l
      else if K_ltb k k' then k :: l
      else k' :: insert_key k l'
  end.

(** The group keys: the values of the key column that are present, each
    once, in ascending order ([sort=True], [dropna=True]). *)
Definition group_keys (df : DataFrame) : list K :=
  fold_right (fun r acc => match key r with
                           | Some k => insert_key k acc
                           | None => acc
                           end) [] df.

(** The rows of one group, in row order. *)
Definition group (df : DataFrame) (k : K) : DataFrame :=
  filter (fun r => match key r with
                   | Some k' => K_eqb k' k
                   | None => false
                   end) df.

Definition groupby (df : DataFrame) : list (K * DataFrame) :=
  map (fun k => (k, group df k)) (group_keys df).

End GroupBy.

(** The ["count"] aggregation: the number of cells that are present. *)
Definition count {A} (cells : list (option A)) : Z :=
  Z.of_nat (List.length (filter cell_notna cells)).

(** A row of [genre_stats] or [author_stats]. *)
Record stats : Type := mkStats {
  group_key : string;
  Avg_Rating : float;
  Total_Reviews : Z;
  Est_Revenue : float;
  Book_Count : Z
}.

Definition agg_stats (g : string * DataFrame) : stats :=
  {| group_key := fst g;
     Avg_Rating := Float64.group_mean (map Rating (snd g));
     Total_Reviews := Int64.sum (map reviews_count (snd g));
     Est_Revenue := Float64.group_sum (map Estimated_Revenue (snd g));
     Book_Count := count (map Book_name (snd g)) |}.

Definition genre_stats (fdf : DataFrame) : list stats :=
  map agg_stats (groupby String.eqb String.ltb Genre fdf).

Definition author_stats (fdf : DataFrame) : list stats :=
  map agg_stats (groupby String.eqb String.ltb Author fdf).

Definition top_authors (fdf : DataFrame) : list stats :=
  nlargest Z_isna Z.ltb Total_Reviews 15 (author_stats fdf).

(** A row of [yearly_trend]. *)
Record year_stats : Type := mkYearStats {
  y_Year : Z;
  y_Book_Count : Z;
  y_Avg_Rating : float;
  y_Total_Reviews : Z
}.

Definition agg_year_stats (g : Z * DataFrame) : year_stats :=
  {| y_Year := fst g;
     y_Book_Count := count (map Book_name (snd g));
     y_Avg_Rating := Float64.group_mean (map Rating (snd g));
     y_Total_Reviews := Int64.sum (map reviews_count (snd g)) |}.

(** [trend_df] and, when it is not empty, [yearly_trend]. *)
Definition trend_df (fdf : DataFrame) : DataFrame :=
  filter (fun r => cell_notna (Year r)) fdf.

Definition yearly_trend (fdf : DataFrame) : option (list year_stats) :=
  match trend_df fdf with
  | [] => None
  | t => Some (map agg_year_stats (groupby Z.eqb Z.ltb Year t))
  end.

(* ================================================================== *)
(** * One run of the script after loading *)

(** What the pipeline hands to the widgets and charts. *)
Record tables : Type := mkTables {
  t_filtered_df : DataFrame;
  t_kpis : KPIs;
  t_top_reviews : DataFrame;
  t_top_rated : DataFrame;
  t_top_revenue : DataFrame;
  t_genre_stats : list stats;
  t_author_stats : list stats;
  t_top_authors : list stats;
  t_yearly_trend : option (list year_stats)
}.

Record run_result : Type := mkRun {
  run_tables : tables;
  run_file_name : string   (* the name offered by the download button *)
}.

Definition digit_char (n : Z) : ascii := ascii_of_nat (48 + Z.to_nat (n mod 10)).

(** [t.strftime("%Y%m%d")] *)
Definition strftime_Ymd (t : Timestamp) : string :=
  let y := ts_year t in let m := ts_month t in let d := ts_day t in
  String (digit_char (y / 1000)) (String (digit_char (y / 100))
  (String (digit_char (y / 10)) (String (digit_char y)
  (String (digit_char (m / 10)) (String (digit_char m)
  (String (digit_char (d / 10)) (String (digit_char d) EmptyString))))))).

Definition compute_tables (df : DataFrame) (sel : selection) : tables :=
  let fdf := filtered_df df sel in
  {| t_filtered_df := fdf;
     t_kpis := kpis fdf;
     t_top_reviews := top_reviews fdf;
     t_top_rated := top_rated fdf;
     t_top_revenue := top_revenue fdf;
     t_genre_stats := genre_stats fdf;
     t_author_stats := author_stats fdf;
     t_top_authors := top_authors fdf;
     t_yearly_trend := yearly_trend fdf |}.

(** The script body from the filters on, given the loaded frame, the widget
    values and the clock that [datetime.now()] reads. *)
Definition run (now : Timestamp) (df : DataFrame) (sel : selection) : run_result :=
  {| run_tables := compute_tables df sel;
     run_file_name := ("filtered_books_" ++ strftime_Ymd now ++ ".csv")%string |}.

(* ================================================================== *)
(** * Specification-level predicates *)

(** The format and year steps of [filtered_df], as row predicates. *)
Definition format_mask (sel : selection) (r : row) : bool :=
  if negb (String.eqb (format_filter sel) "All Formats")
  then cell_eqb (form r) (format_filter sel)
  else true.

Definition year_mask (sel : selection) (r : row) : bool :=
  match year_filter sel with
  | All_Years => true
  | A_Year y => year_eqb (Year r) y
  end.

(** The conjunction of the six filter predicates. *)
Definition passes (sel : selection) (r : row) : bool :=
  genre_mask sel r && author_mask sel r && price_mask sel r
  && rating_mask sel r && format_mask sel r && year_mask sel r.


(* ================================================================== *)
(** * The sidebar: options, defaults and quick stats *)

(** ** Distinct values of a column *)

Section Unique.

Variable A : Type.
Variable eqb : A -> A -> bool.

Fixpoint unique_from (seen : list A) (l : list A) : list A :=
  match l with
  | [] => []
  | x :: l' =>
      if existsb (eqb x) seen then unique_from seen l'
      else x :: unique_from (x :: seen) l'
  end.

(** [Series.unique()]: the values in order of first appearance. *)
Definition unique (l : list A) : list A := unique_from [] l.

End Unique.

(** Equality of cells as [unique] sees it: the missing cell is one value. *)
Definition cell_same (c d : option string) : bool :=
  match c, d with
  | Some s, Some t => String.eqb s t
  | None, None => true
  | _, _ => false
  end.

(** The cells of a column that are present. *)
Fixpoint dropna {A} (cells : list (option A)) : list A :=
  match cells with
  | [] => []
  | Some a :: cells' => a :: dropna cells'
  | None :: cells' => dropna cells'
  end.

(** [Series.nunique()]: the number of distinct values that are present. *)
Definition nunique (cells : list (option string)) : Z :=
  Z.of_nat (List.length (unique String.eqb (dropna cells))).

(** ** Python's [sorted] *)

(** [sorted(l)] in ascending order of [ltb]: a stable sort, which is the
    stable descending sort under the converse order. *)
Definition sorted_by {A} (ltb : A -> A -> bool) (l : list A) : list A :=
  sort_desc (fun a b => ltb b a) (fun a => a) l.

(** [sorted(l, reverse=True)]: stable as well. *)
Definition sorted_reverse_by {A} (ltb : A -> A -> bool) (l : list A) : list A :=
  sort_desc ltb (fun a => a) l.

(** [sorted] over the values of a text column as [tolist()] gives them:
    [str] objects, and the float NaN for a missing cell.  Comparing a
    [str] with a float raises [TypeError], for which [None] stands; NaN
    floats compare false with each other and stay where they are. *)
Definition sorted_cells (values : list (option string))
    : option (list (option string)) :=
  if forallb cell_notna values
  then Some (map Some (sorted_by String.ltb (dropna values)))
  else if forallb (fun c => negb (cell_notna c)) values
       then Some values
       else None.

(** ** Options of the widgets *)

(** [["All Genres"] + sorted(df["Genre"].unique().tolist())] *)
Definition genre_options (df : DataFrame) : option (list (option string)) :=
  option_map (cons (Some "All Genres"%string))
    (sorted_cells (unique cell_same (map Genre df))).

(** [["All Authors"] + sorted(df["Author"].unique().tolist())] *)
Definition author_options (df : DataFrame) : option (list (option string)) :=
  option_map (cons (Some "All Authors"%string))
    (sorted_cells (unique cell_same (map Author df))).

(** [["All Formats"] + df["form"].unique().tolist()] *)
Definition format_options (df : DataFrame) : list (option string) :=
  Some "All Formats"%string :: unique cell_same (map form df).

(** The years of [year_options], after the ["All Years"] entry:
    [sorted([y for y in df["Year"].dropna().unique() if not pd.isna(y)],
    reverse=True)] *)
Definition year_options (df : DataFrame) : list Z :=
  sorted_reverse_by Z.ltb (unique Z.eqb (dropna (map Year df))).

(** ** Bounds and default of the price slider *)

(** [Series.min()] and [Series.max()] of a float column: over the cells
    that are present; NaN when there is none. *)
Definition series_min (xs : list float) : float :=
  match filter Float64.notna xs with
  | [] => nan
  | x :: l => fold_left (fun m y => if (y <? m)%float then y else m) l x
  end.

Definition series_max (xs : list float) : float :=
  match filter Float64.notna xs with
  | [] => nan
  | x :: l => fold_left (fun m y => if (m <? y)%float then y else m) l x
  end.

(** The selection the widgets hold before the user touches them, when
    the sidebar can be built: the [default=] entries of the multiselects,
    the whole range of the price slider, a minimum rating of 0.0, the
    first option of the select boxes.

    There is none when building the sidebar raises: [sorted] on a name
    column that is partly missing ([genre_options], [author_options]),
    and [st.slider] when the least price is not below the greatest, which
    Streamlit refuses ("min_value must be less than the max_value"), as
    with a dataset of one price only, or when a bound is infinite, which
    is beyond the numbers Streamlit accepts.  A dataset without any price
    gives NaN for both bounds, which a slider has no use for: no
    selection is modelled for it either. *)
Definition slider_bounds_ok (lo hi : float) : bool :=
  (lo <? hi)%float && negb (is_infinity lo) && negb (is_infinity hi).

Definition default_selection (df : DataFrame) : option selection :=
  match genre_options df, author_options df with
  | Some _, Some _ =>
      let lo := series_min (map price df) in
      let hi := series_max (map price df) in
      if slider_bounds_ok lo hi then
        Some {| genre_filter := ["All Genres"%string];
                author_filter := ["All Authors"%string];
                price_range := (lo, hi);
                rating_filter := 0%float;
                format_filter := "All Formats"%string;
                year_filter := All_Years |}
      else None
  | _, _ => None
  end.

(** ** Quick stats *)

Record quick_stats : Type := mkQuickStats {
  qs_total_books : Z;   (* len(df) *)
  qs_genres : Z;        (* df["Genre"].nunique() *)
  qs_authors : Z        (* df["Author"].nunique() *)
}.

Definition sidebar_stats (df : DataFrame) : quick_stats :=
  {| qs_total_books := Z.of_nat (List.length df);
     qs_genres := nunique (map Genre df);
     qs_authors := nunique (map Author df) |}.

(* ================================================================== *)
(** * Text shown by the widgets *)

(** The decimal digits of a natural number. *)
Definition decimal_digits (n : N) : string :=
  NilZero.string_of_uint (N.to_uint n).

(** A comma after every third character of [l], counting from its head,
    where characters follow; [k] characters were passed since the last
    comma. *)
Fixpoint group3 (k : nat) (l : list ascii) : list ascii :=
  match l with
  | [] => []
  | c :: l' =>
      match l' with
      | [] => [c]
      | _ :: _ =>
          if (k =? 2)%nat then c :: ","%char :: group3 0 l'
          else c :: group3 (S k) l'
      end
  end.

(** [f"{n:,}"] for an integer: the digits in groups of three from the
    right, a minus sign in front of a negative number. *)
Definition format_thousands (n : Z) : string :=
  let digits := list_ascii_of_string (decimal_digits (Z.to_N (Z.abs n))) in
  let grouped := string_of_list_ascii (rev (group3 0 (rev digits))) in
  if (n <? 0)%Z then String "-" grouped else grouped.

(** The detail cards of the most reviewed books, one title per row of
    [top_reviews.head(5)]: [f"**{row['Book name'][:40]}...**"].  A missing
    book name is a float, which cannot be sliced: the loop stops there
    with [TypeError].  The result is the titles written and whether the
    loop raised. *)
Fixpoint write_titles (rows : DataFrame) : list string * bool :=
  match rows with
  | [] => ([], false)
  | r :: rows' =>
      match Book_name r with
      | None => ([], true)
      | Some name =>
          let '(titles, raised) := write_titles rows' in
          (("**" ++ substring 0 40 name ++ "...**")%string :: titles, raised)
      end
  end.

Definition detail_titles (fdf : DataFrame) : list string * bool :=
  write_titles (firstn 5 (top_reviews fdf)).

(* ================================================================== *)
(** * Predicates of the specification *)

(** ** Narrowing a selection *)

(** A multiselect narrowed the way the claim words it: fewer entries. *)
Definition smaller_choice (chosen' chosen : list string) : Prop :=
  incl chosen' chosen.

(** A multiselect narrowed without being emptied: either the one it is
    compared with selects all (by its sentinel, or by being empty), or it
    keeps some of the entries of the other and at least one. *)
Definition narrower_choice (sentinel : string) (chosen' chosen : list string) : Prop :=
  all_selected sentinel chosen = true
  \/ (incl chosen' chosen /\ chosen' <> []).

(** [narrows sel' sel]: every filter of [sel'] is the one of [sel] or a
    narrowing of it. *)
Record narrows (sel' sel : selection) : Prop := mkNarrows {
  narrower_genre :
    narrower_choice "All Genres" (genre_filter sel') (genre_filter sel);
  narrower_author :
    narrower_choice "All Authors" (author_filter sel') (author_filter sel);
  narrower_price_low :
    (fst (price_range sel) <=? fst (price_range sel'))%float = true
    \/ fst (price_range sel') = fst (price_range sel);
  narrower_price_high :
    (snd (price_range sel') <=? snd (price_range sel))%float = true
    \/ snd (price_range sel') = snd (price_range sel);
  narrower_rating :
    (rating_filter sel <=? rating_filter sel')%float = true
    \/ rating_filter sel' = rating_filter sel;
  narrower_format :
    format_filter sel = "All Formats"%string
    \/ format_filter sel' = format_filter sel;
  narrower_year :
    year_filter sel = All_Years \/ year_filter sel' = year_filter sel
}.

(** The mask of a multiselect: all rows with the field present, or the
    rows whose field is one of the entries. *)
Definition choice_mask (sentinel : string) (chosen : list string)
    (c : option string) : bool :=
  if all_selected sentinel chosen then cell_notna c else cell_isin c chosen.


(** ** Shapes of text *)

Module PyShape.

Import Py.
Local Open Scope char_scope.

(** Text made of digits and dots only. *)
Fixpoint decimal_text (s : string) : bool :=
  match s with
  | EmptyString => true
  | String c t => (is_digit c || Ascii.eqb c ".") && decimal_text t
  end.

(** What [span_digits] returns: the digits, the rest, and a rest that
    does not start with a digit. *)
Definition no_digit_ahead (s : string) : bool :=
  match s with
  | EmptyString => true
  | String c _ => negb (is_digit c)
  end.

End PyShape.

(** ** Conversions of one line *)

Section LoaderSpec.

Variable log1p : float -> float.
Variable to_datetime_cell : list (option string) -> string -> option Timestamp.

(** A column that has the [.str] accessor: it holds a text cell, or the
    file has no line. *)
Definition text_column (column : list cell) : Prop :=
  column = [] \/ exists s, In (Text s) column.

(** The three conversions of a line. *)
Definition rating_cell (r : raw_row) : outcome float :=
  astype_float_cell (str_extract_decimal (raw_Rating r)).

Definition price_cell (r : raw_row) : outcome float :=
  astype_float (replace_dollar_comma (raw_price r)).

Definition rank_cell (r : raw_row) : outcome Z :=
  astype_int_cell (str_replace_hash (raw_id r)).

Definition price_converts (r : raw_row) : Prop :=
  exists x, price_cell r = Returned x.

Definition id_converts (r : raw_row) : Prop :=
  exists k, rank_cell r = Returned k.

(** The price text, once dollar signs and commas are removed, is not a
    float literal. *)
Definition price_unparseable (r : raw_row) : Prop :=
  exists s, raw_price r = Text s /\
            Py.float_of_str (Py.remove_dollar_comma s) = None.

(** The identifier text, once its hash signs are removed, is not an
    integer literal. *)
Definition id_unparseable (r : raw_row) : Prop :=
  exists s, raw_id r = Text s /\ Py.int_of_str (Py.remove_hash s) = None.

(** How a cleaned row relates to the line it comes from; [column] is the
    whole publishing-date column. *)
Definition row_cleaned (column : list (option string)) (r : raw_row) (x : row)
    : Prop :=
  exists rating price rank,
    rating_cell r = Returned rating /\
    price_cell r = Returned price /\
    rank_cell r = Returned rank /\
    x = clean_row log1p r rating price rank
          (coerce_cell to_datetime_cell column (raw_Publishing_date r)).

End LoaderSpec.

(** The identifier with its leading hash sign taken off, as the claim
    words the cleaning of the rank (the code removes every hash sign:
    [Py.remove_hash]). *)
Definition strip_leading_hash (s : string) : string :=
  match s with
  | String "#" t => t
  | _ => s
  end.


(** ** Stable top-N selections *)

Section SelectNSpec.

Variables (T A : Type).
Variable isna : A -> bool.
Variable ltb : A -> A -> bool.
Variable col : T -> A.

(** [x] may stand before [y] in a descending selection: its value is not
    below that of [y], and a row without a value is followed by such rows
    only. *)
Definition in_order (x y : T) : Prop :=
  ltb (col x) (col y) = false /\ (isna (col x) = true -> isna (col y) = true).

(** The rows whose value is present and ties with [v]: neither below nor
    above it. *)
Definition tied (v : A) (x : T) : bool :=
  negb (isna v) && negb (isna (col x))
  && negb (ltb (col x) v) && negb (ltb v (col x)).

Definition missing (x : T) : bool := isna (col x).

(** [top] is a top-[n] selection of [l] by [col], descending, with ties
    broken by row order:
    - it has [n] rows, or all the rows when there are fewer;
    - it is in descending order, rows without a value last;
    - it holds rows of [l], and no row left out could stand before a row
      that was taken;
    - the rows of [top] that tie on a value are, in the same order, the
      first of the rows of [l] that tie on it; so are those without
      value. *)
Definition stable_top_n (n : nat) (l top : list T) : Prop :=
  List.length top = Nat.min n (List.length l)
  /\ StronglySorted in_order top
  /\ (exists rest, Permutation (top ++ rest) l
                   /\ forall x y, In x top -> In y rest -> in_order x y)
  /\ (forall v, exists later,
         filter (tied v) l = filter (tied v) top ++ later)
  /\ (exists later, filter missing l = filter missing top ++ later).

End SelectNSpec.

Arguments in_order {T A} isna ltb col x y.
Arguments tied {T A} isna ltb col v x.
Arguments missing {T A} isna col x.
Arguments stable_top_n {T A} isna ltb col n l top.


(** ** Totals over grouped rows *)

(** The total of the ["Book Count"] column of an aggregate table. *)
Definition total_Book_Count (t : list stats) : Z :=
  fold_right Z.add 0%Z (map Book_Count t).

(** What the rows weigh in total under a weight [w] (1 for a row that an
    aggregation counts, 0 for one it skips). *)
Definition weight (w : row -> Z) (l : DataFrame) : Z :=
  fold_right Z.add 0%Z (map w l).

(** The ["count"] aggregation weighs a row 1 when its cell is present. *)
Definition counted {A} (cell : row -> option A) (r : row) : Z :=
  if cell_notna (cell r) then 1%Z else 0%Z.


(** ** Further predicates *)

(** The text holds a decimal point. *)
Fixpoint has_dot (s : string) : bool :=
  match s with
  | EmptyString => false
  | String c t => Ascii.eqb c "." || has_dot t
  end.

(** The rating cell of a line holds no decimal number for sure: it is
    not text, or its text has no decimal point. *)
Definition rating_without_point (r : raw_row) : Prop :=
  is_text (raw_Rating r) = false
  \/ exists s, raw_Rating r = Text s /\ has_dot s = false.

(** A selection with another choice of genres, or of authors. *)
Definition with_genres (sel : selection) (genres : list string) : selection :=
  {| genre_filter := genres;
     author_filter := author_filter sel;
     price_range := price_range sel;
     rating_filter := rating_filter sel;
     format_filter := format_filter sel;
     year_filter := year_filter sel |}.

Definition with_authors (sel : selection) (authors : list string) : selection :=
  {| genre_filter := genre_filter sel;
     author_filter := authors;
     price_range := price_range sel;
     rating_filter := rating_filter sel;
     format_filter := format_filter sel;
     year_filter := year_filter sel |}.



(* ================================================================== *)
(** * Concrete data for the examples *)

Module Examples.

Local Open Scope string_scope.

(** The theorems about [load_data] hold for any function in place of
    [numpy.log1p]; the examples take the first term of its series. *)
Definition log1p_example (x : float) : float := x.

(** A date parser for the examples: [YYYY-MM-DD], whatever the column. *)
Definition iso_date (_ : list (option string)) (s : string) : option Timestamp :=
  match s with
  | String y1 (String y2 (String y3 (String y4 (String "-"
    (String m1 (String m2 (String "-" (String d1 (String d2 EmptyString)))))))))
    =>
      let year := String y1 (String y2 (String y3 (String y4 EmptyString))) in
      let month := String m1 (String m2 EmptyString) in
      let day := String d1 (String d2 EmptyString) in
      if Py.all_digits (year ++ month ++ day)
      then Some {| ts_year := Z.of_N (Py.digits_value 0 year);
                   ts_month := Z.of_N (Py.digits_value 0 month);
                   ts_day := Z.of_N (Py.digits_value 0 day) |}
      else None
  | _ => None
  end.

(** A line of the file with the columns the examples vary. *)
Definition book (id : cell) (name author : option string) (rating : cell)
    (reviews : Z) (price : cell) (date genre : option string) : raw_row :=
  {| raw_id := id;
     raw_Book_name := name;
     raw_Author := author;
     raw_Rating := rating;
     raw_reviews_count := reviews;
     raw_form := Some "Paperback";
     raw_price := price;
     raw_Reading_age := None;
     raw_Print_Length := 320%float;
     raw_Publishing_date := date;
     raw_Genre := genre |}.

(** The frame [load_data] returns for the lines [raw]. *)
Definition frame_of (raw : list raw_row) : DataFrame :=
  match load_data log1p_example iso_date (Some raw) with
  | Returned (Some df) => df
  | _ => []
  end.

(** The line of the cleaning scenario. *)
Definition raw3 : raw_row :=
  book (Text "#3") (Some "A Novel") (Some "A. Writer")
       (Text "4.5 out of 5 stars") 1500 (Text "$12.99") (Some "2023-01-05")
       (Some "Fiction").

(** A line whose rating text holds no decimal number and whose date does
    not parse. *)
Definition raw_unrated : raw_row :=
  book (Text "#4") (Some "A Sequel") (Some "A. Writer")
       (Text "Not yet rated") 20 (Text "$8.00") (Some "Spring 2023")
       (Some "Fiction").

Definition raw_poetry : raw_row :=
  book (Text "#5") (Some "Verses") (Some "B. Poet")
       (Text "4.8 out of 5 stars") 300 (Text "$1,020.50") None
       (Some "Poetry").

(** The default state of the sidebar over a price range, and variations. *)
Definition select (genres : list string) (minimum_rating : float) : selection :=
  {| genre_filter := genres;
     author_filter := ["All Authors"];
     price_range := (0%float, 2000%float);
     rating_filter := minimum_rating;
     format_filter := "All Formats";
     year_filter := All_Years |}.

Definition all_pass : selection := select ["All Genres"] 0%float.

(** The filtering scenario: the cleaned line alone, a minimum rating of
    4.6. *)
Definition one_book : DataFrame := frame_of [raw3].
Definition above_4_6 : selection := select ["All Genres"] 4.6%float.

(** A line of fiction at a given price. *)
Definition fiction_at (price : string) (n : Z) (id name : string) : raw_row :=
  book (Text id) (Some name) (Some "A. Writer") (Text "4.0 out of 5 stars")
       n (Text price) (Some "2023-01-05") (Some "Fiction").

Definition fiction (n : Z) (id name : string) : raw_row :=
  fiction_at "$10.00" n id name.

(** Six lines of one genre at six prices, the least reviewed one without
    a book name. *)
Definition raw_nameless : raw_row :=
  book (Text "#6") None (Some "A. Writer") (Text "4.0 out of 5 stars")
       100 (Text "$15.00") (Some "2023-01-05") (Some "Fiction").

Definition six_fiction : list raw_row :=
  [fiction_at "$10.00" 600 "#1" "One"; fiction_at "$11.00" 500 "#2" "Two";
   fiction_at "$12.00" 400 "#3" "Three"; fiction_at "$13.00" 300 "#4" "Four";
   fiction_at "$14.00" 200 "#5" "Five"; raw_nameless].

(** Two lines tied at 100 reviews. *)
Definition two_tied : list raw_row :=
  [fiction 100 "#1" "First"; fiction 100 "#2" "Second"].

(** A line whose identifier has a hash sign that is not in front. *)
Definition raw_inner_hash : raw_row :=
  book (Text "1#2") (Some "A Novel") (Some "A. Writer")
       (Text "4.5 out of 5 stars") 1500 (Text "$12.99") (Some "2023-01-05")
       (Some "Fiction").

Definition raw_bad_price : raw_row :=
  book (Text "#7") (Some "A Novel") (Some "A. Writer")
       (Text "4.5 out of 5 stars") 1500 (Text "12.99 USD") (Some "2023-01-05")
       (Some "Fiction").

End Examples.

(* ================================================================== *)
(** * The operations on small inputs *)

Section Checks.

Local Open Scope string_scope.

Example search_decimal_stars :
  Py.search_decimal "4.5 out of 5 stars" = Some "4.5".
Proof. reflexivity. Qed.

Example search_decimal_leftmost :
  Py.search_decimal "vol. 12. 3.45 or 6.7" = Some "3.45".
Proof. reflexivity. Qed.

Example search_decimal_none : Py.search_decimal "Rated 5 stars" = None.
Proof. reflexivity. Qed.

Example float_of_str_price :
  Py.float_of_str (Py.remove_dollar_comma "$1,299.90") = Some 1299.9%float.
Proof. reflexivity. Qed.

Example float_of_str_literals :
  map Py.float_of_str [" 4.5 "; "1e3"; ".5"; "1_000.5"; "-Infinity"; "-0"]
  = [Some 4.5; Some 1000; Some 0.5; Some 1000.5; Some neg_infinity;
     Some (-0)]%float.
Proof. reflexivity. Qed.

Example float_of_str_rejects :
  map Py.float_of_str [""; "."; "12.99 USD"; "1,2"; "1__0"; "1e"; "0x10"]
  = [None; None; None; None; None; None; None].
Proof. reflexivity. Qed.

(** The separators 28 to 31 are not ignored; the no-break space is. *)
Example float_of_str_whitespace :
  map Py.float_of_str
    [String (ascii_of_nat 28) "1.5"; String "1" (String (ascii_of_nat 31) "");
     String (ascii_of_nat 160) "1.5"; String (ascii_of_nat 9) "1.5 "]
  = [None; None; Some 1.5%float; Some 1.5%float].
Proof. reflexivity. Qed.

Example int_of_str_literals :
  map Py.int_of_str (map Py.remove_hash ["#3"; "# 42 "; "#-7"; "#007"; "#1_000"])
  = [Some 3; Some 42; Some (-7); Some 7; Some 1000]%Z.
Proof. reflexivity. Qed.

Example int_of_str_rejects :
  map Py.int_of_str (map Py.remove_hash ["#"; "#3.0"; "#three"; "#1 2"])
  = [None; None; None; None].
Proof. reflexivity. Qed.

Example of_decimal_rounds_to_nearest :
  Float64.of_decimal false 1 (-1) = 0.1%float
  /\ Float64.of_decimal false 9007199254740993 0 = 9007199254740992%float
  /\ Float64.of_decimal false 17976931348623159 292 = infinity.
Proof. repeat split. Qed.

Example round2_values :
  map Float64.round2 [4.4567; -0.004; 2.5]%float = [4.46; -0; 2.5]%float
  /\ Float64.isna (Float64.round2 nan) = true.
Proof. repeat split. Qed.

(** Eight cells are summed in eight running sums that are combined in
    pairs, which keeps the small cells a sum in row order would lose; the
    sum of a group compensates for what an addition loses. *)
Example sum_of_eight_cells :
  Float64.sum [1e16; 1; 1; 1; 1; 1; 1; 1]%float = 10000000000000006%float
  /\ fold_left PrimFloat.add [1e16; 1; 1; 1; 1; 1; 1; 1]%float 0%float
     = 1e16%float
  /\ Float64.group_sum [1e16; 1; 1]%float = 10000000000000002%float
  /\ Float64.sum [1e16; 1; 1]%float = 1e16%float.
Proof. repeat split. Qed.

Example sums_skip_missing_cells :
  Float64.sum [nan; 2; nan]%float = 2%float
  /\ Float64.mean [nan; 2; 4; nan]%float = 3%float
  /\ Float64.group_mean [nan; 2; 4; nan]%float = 3%float
  /\ Float64.group_sum [nan]%float = 0%float
  /\ Float64.isna (Float64.group_mean [nan]%float) = true.
Proof. repeat split. Qed.

Example int64_sum_wraps :
  Int64.sum [Int64.max_int; 1%Z] = Int64.min_int.
Proof. reflexivity. Qed.

(** The cleaning scenario: one line, loaded. *)
Example load_one_line :
  option_map (map (fun r => (Rank r, Rating r, price r, Year r, Month r,
                             Estimated_Revenue r, Reading_age r)))
    (match load_data Examples.log1p_example Examples.iso_date
             (Some [Examples.raw3]) with
     | Returned df => df
     | Raised _ => None
     end)
  = Some [(3%Z, 4.5%float, 12.99%float, Some 2023%Z, Some 1%Z, 19485%float,
           "Not Specified")].
Proof. reflexivity. Qed.

(** A rating column without any text has no [.str] accessor, whether its
    cells are missing or numbers; neither has an identifier column of
    numbers. *)
Example load_without_text :
  map (fun raw => load_data Examples.log1p_example Examples.iso_date (Some raw))
    [ [Examples.book (Text "#1") (Some "One") None Missing 10 (Text "$5.00")
         None None];
      [Examples.book (Text "#1") (Some "One") None (Number 4.5) 10
         (Text "$5.00") None None];
      [Examples.book (Number 1) (Some "One") None (Text "4.5 out of 5 stars")
         10 (Text "$5.00") None None] ]
  = [Raised AttributeError; Raised AttributeError; Raised AttributeError].
Proof. reflexivity. Qed.

(** Beside a line with text, a missing rating, a rating without decimal
    point and a price that is a number are loaded. *)
Example load_beside_text :
  option_map (map (fun r => (Float64.isna (Rating r), price r)))
    (match load_data Examples.log1p_example Examples.iso_date
             (Some [Examples.raw3;
                    Examples.book (Text "#1") (Some "One") None Missing 10
                      (Number 5) None None;
                    Examples.book (Text "#2") (Some "Two") None
                      (Text "5 out of 5 stars") 10 Missing None None]) with
     | Returned df => df
     | Raised _ => None
     end)
  = Some [(false, 12.99%float); (true, 5%float); (true, nan)].
Proof. reflexivity. Qed.

(** The sidebar comes up over six prices, with the slider from the least
    to the greatest; over two books at one price it does not. *)
Example default_selection_of_six :
  option_map price_range
    (default_selection (Examples.frame_of Examples.six_fiction))
  = Some (10%float, 15%float)
  /\ default_selection (Examples.frame_of Examples.two_tied) = None.
Proof. split; reflexivity. Qed.

(** A minimum rating of 4.6 over that line alone leaves no row. *)
Example filter_out_the_only_row :
  filtered_df Examples.one_book Examples.above_4_6 = []
  /\ total_books (kpis (filtered_df Examples.one_book Examples.above_4_6)) = 0%Z.
Proof. split; reflexivity. Qed.

(** Groups come in the order of their keys; a missing rating is left out
    of the mean of its group. *)
Example genre_stats_of_three :
  genre_stats (Examples.frame_of
                 [Examples.raw_poetry; Examples.raw3; Examples.raw_unrated])
  = [ {| group_key := "Fiction"; Avg_Rating := 4.5; Total_Reviews := 1520;
         Est_Revenue := 19645; Book_Count := 2 |};
      {| group_key := "Poetry"; Avg_Rating := 4.8; Total_Reviews := 300;
         Est_Revenue := 306150; Book_Count := 1 |} ].
Proof. reflexivity. Qed.

End Checks.

Unset Implicit Arguments.
(* ================================================================== *)
(** * Facts about binary64 comparisons

    Derived from the specification of the primitive operations
    ([leb_spec], [ltb_spec], [eqb_spec]) by cases on [SFcompare]. *)

Module Float64Facts.

Ltac compare_cases :=
  change (PosDef.Pos.compare_cont Eq) with Pos.compare in *;
  repeat match goal with
  | |- context [Z.compare ?a ?b] => destruct (Z.compare_spec a b)
  | H : context [Z.compare ?a ?b] |- _ => destruct (Z.compare_spec a b)
  | |- context [Pos.compare ?a ?b] => destruct (Pos.compare_spec a b)
  | H : context [Pos.compare ?a ?b] |- _ => destruct (Pos.compare_spec a b)
  end.

Ltac by_float_cases :=
  repeat match goal with
  | s : bool |- _ => destruct s
  end;
  simpl in *; try discriminate; try reflexivity; try congruence;
  compare_cases; simpl in *;
  try discriminate; try reflexivity; try congruence; try lia.

Lemma SFcompare_refl (f : spec_float) :
  f <> S754_nan -> SFcompare f f = Some Eq.
Proof.
  destruct f as [s|s| |s m e]; simpl; try congruence; intros _.
  - destruct s; reflexivity.
  - destruct s; rewrite Z.compare_refl;
      change (PosDef.Pos.compare_cont Eq m m) with (Pos.compare m m);
      rewrite Pos.compare_refl; reflexivity.
Qed.

Lemma SFleb_not_nan (f g : spec_float) :
  SFleb f g = true -> f <> S754_nan /\ g <> S754_nan.
Proof. unfold SFleb; destruct f, g; simpl; split; congruence. Qed.

Lemma SFleb_trans (a b c : spec_float) :
  SFleb a b = true -> SFleb b c = true -> SFleb a c = true.
Proof.
  unfold SFleb.
  destruct a as [sa|sa| |sa ma ea], b as [sb|sb| |sb mb eb],
           c as [sc|sc| |sc mc ec];
    simpl; try discriminate; try reflexivity; intros H1 H2; by_float_cases.
Qed.

Lemma SFltb_asym (a b : spec_float) :
  SFltb a b = true -> SFltb b a = false.
Proof.
  unfold SFltb.
  destruct a as [sa|sa| |sa ma ea], b as [sb|sb| |sb mb eb];
    simpl; try discriminate; try reflexivity; intros H1; by_float_cases.
Qed.

Lemma SFltb_negtrans (a b c : spec_float) :
  b <> S754_nan ->
  SFltb a b = false -> SFltb b c = false -> SFltb a c = false.
Proof.
  unfold SFltb.
  destruct a as [sa|sa| |sa ma ea], b as [sb|sb| |sb mb eb],
           c as [sc|sc| |sc mc ec];
    simpl; try congruence; intros _ H1 H2; by_float_cases.
Qed.

Lemma SFltb_nan_l (g : spec_float) : SFltb S754_nan g = false.
Proof. reflexivity. Qed.

Lemma SFltb_nan_r (f : spec_float) : SFltb f S754_nan = false.
Proof. destruct f; reflexivity. Qed.

Lemma isna_spec (x : float) :
  Float64.isna x = true <-> Prim2SF x = S754_nan.
Proof.
  unfold Float64.isna, is_nan. rewrite eqb_spec. unfold SFeqb.
  split.
  - destruct (Prim2SF x) as [s|s| |s m e] eqn:E; auto; intros H; exfalso.
    all: rewrite SFcompare_refl in H by congruence; discriminate.
  - intros ->. reflexivity.
Qed.

Lemma notna_spec (x : float) :
  Float64.isna x = false <-> Prim2SF x <> S754_nan.
Proof.
  rewrite <- isna_spec. destruct (Float64.isna x); split; congruence.
Qed.

(** A comparison that holds has no NaN on either side. *)
Lemma leb_notna (x y : float) :
  (x <=? y)%float = true -> Float64.isna x = false /\ Float64.isna y = false.
Proof.
  rewrite leb_spec. intros H. apply SFleb_not_nan in H.
  rewrite !notna_spec. exact H.
Qed.

Lemma leb_trans (x y z : float) :
  (x <=? y)%float = true -> (y <=? z)%float = true -> (x <=? z)%float = true.
Proof. rewrite !leb_spec. apply SFleb_trans. Qed.

Lemma ltb_asym (x y : float) :
  (x <? y)%float = true -> (y <? x)%float = false.
Proof. rewrite !ltb_spec. apply SFltb_asym. Qed.

Lemma ltb_negtrans (x y z : float) :
  Float64.isna y = false ->
  (x <? y)%float = false -> (y <? z)%float = false -> (x <? z)%float = false.
Proof. rewrite notna_spec, !ltb_spec. apply SFltb_negtrans. Qed.

Lemma ltb_isna_l (x y : float) :
  Float64.isna x = true -> (x <? y)%float = false.
Proof. rewrite isna_spec, ltb_spec. intros ->. apply SFltb_nan_l. Qed.

Lemma ltb_isna_r (x y : float) :
  Float64.isna y = true -> (x <? y)%float = false.
Proof. rewrite isna_spec, ltb_spec. intros ->. apply SFltb_nan_r. Qed.

Lemma between_notna (x lo hi : float) :
  Float64.between x lo hi = true -> Float64.isna x = false.
Proof.
  unfold Float64.between. intros H. apply andb_prop in H as [H _].
  apply leb_notna in H. tauto.
Qed.

Lemma between_widen (x lo hi lo' hi' : float) :
  (lo <=? lo')%float = true \/ lo' = lo ->
  (hi' <=? hi)%float = true \/ hi' = hi ->
  Float64.between x lo' hi' = true -> Float64.between x lo hi = true.
Proof.
  unfold Float64.between. intros Hlo Hhi H.
  apply andb_prop in H as [H1 H2]. apply andb_true_intro. split.
  - destruct Hlo as [Hlo| ->]; [eapply leb_trans; eassumption | assumption].
  - destruct Hhi as [Hhi| ->]; [eapply leb_trans; eassumption | assumption].
Qed.

End Float64Facts.

(* ================================================================== *)
(** * The fuel of the summations

    [Float64.unrolled] and [Float64.pairwise_sum] recurse on a fuel; the
    fuel they are called with is never used up, so their results are those
    of numpy's loops, which stop on the length of the array. *)

Section SummationFuel.

Import Float64.

Lemma add_lanes_length (r a : list float) :
  List.length (add_lanes r a) = List.length r.
Proof.
  revert a. induction r as [|x r IH]; intros [|y a]; simpl; auto.
Qed.

Lemma unrolled_S (fuel : nat) (r a : list float) :
  unrolled (S fuel) r a
  = if (8 <=? List.length a)%nat
    then unrolled fuel (add_lanes r (firstn 8 a)) (skipn 8 a)
    else (r, a).
Proof. reflexivity. Qed.

(** The unrolled loop keeps its eight sums and leaves fewer than eight
    cells. *)
Lemma unrolled_spec (fuel : nat) (r a : list float) :
  (List.length a <= fuel)%nat ->
  List.length (fst (unrolled fuel r a)) = List.length r
  /\ (List.length (snd (unrolled fuel r a)) < 8)%nat.
Proof.
  revert r a. induction fuel as [|fuel IH]; intros r a Hf.
  - split; [reflexivity | simpl; lia].
  - rewrite unrolled_S. destruct (8 <=? List.length a)%nat eqn:E.
    + apply Nat.leb_le in E.
      destruct (IH (add_lanes r (firstn 8 a)) (skipn 8 a)) as [H1 H2].
      { rewrite length_skipn. lia. }
      rewrite add_lanes_length in H1. split; assumption.
    + apply Nat.leb_gt in E. split; [reflexivity | exact E].
Qed.

Lemma unrolled_fuel (f1 f2 : nat) (r a : list float) :
  (List.length a <= f1)%nat -> (List.length a <= f2)%nat ->
  unrolled f1 r a = unrolled f2 r a.
Proof.
  revert f2 r a. induction f1 as [|f1 IH]; intros f2 r a H1 H2.
  - destruct a; [|simpl in H1; lia]. destruct f2; reflexivity.
  - destruct f2 as [|f2].
    + destruct a; [reflexivity | simpl in H2; lia].
    + rewrite !unrolled_S.
      destruct (8 <=? List.length a)%nat eqn:E; [|reflexivity].
      apply Nat.leb_le in E. apply IH; rewrite length_skipn; lia.
Qed.

Lemma pairwise_sum_unfold (fuel : nat) (a : list float) :
  pairwise_sum fuel a
  = if (List.length a <? 8)%nat then fold_left PrimFloat.add a (-0)%float
    else if (List.length a <=? 128)%nat then block_sum a
    else
      match fuel with
      | O => block_sum a
      | S fuel' =>
          let n2 := (List.length a / 2 - (List.length a / 2) mod 8)%nat in
          (pairwise_sum fuel' (firstn n2 a)
           + pairwise_sum fuel' (skipn n2 a))%float
      end.
Proof. destruct fuel; reflexivity. Qed.

(** Any fuel that is at least the number of cells gives the same sum. *)
Lemma pairwise_sum_fuel (f1 f2 : nat) (a : list float) :
  (List.length a <= f1)%nat -> (List.length a <= f2)%nat ->
  pairwise_sum f1 a = pairwise_sum f2 a.
Proof.
  revert f2 a. induction f1 as [|f1 IH]; intros f2 a H1 H2;
    rewrite (pairwise_sum_unfold _ a), (pairwise_sum_unfold f2 a);
    destruct (List.length a <? 8)%nat eqn:E8; try reflexivity;
    destruct (List.length a <=? 128)%nat eqn:E128; try reflexivity;
    apply Nat.leb_gt in E128.
  - lia.
  - destruct f2 as [|f2]; [lia|]. cbv zeta.
    assert (Hdiv : (64 <= List.length a / 2)%nat)
      by (apply Nat.div_le_lower_bound; lia).
    assert (Hmod : ((List.length a / 2) mod 8 < 8)%nat)
      by (apply Nat.mod_upper_bound; lia).
    assert (Hhalf : (List.length a / 2 < List.length a)%nat)
      by (apply Nat.div_lt; lia).
    f_equal; apply IH; rewrite ?length_firstn, ?length_skipn; lia.
Qed.

(** The fall-back branch of [block_sum] is not taken on a block. *)
Lemma block_sum_lanes (a : list float) :
  (8 <= List.length a)%nat ->
  exists r0 r1 r2 r3 r4 r5 r6 r7 rest,
    unrolled (List.length a) (firstn 8 a) (skipn 8 a)
    = ([r0; r1; r2; r3; r4; r5; r6; r7], rest)
    /\ (List.length rest < 8)%nat
    /\ block_sum a
       = fold_left PrimFloat.add rest
           (((r0 + r1) + (r2 + r3)) + ((r4 + r5) + (r6 + r7)))%float.
Proof.
  intros H8.
  destruct (unrolled_spec (List.length a) (firstn 8 a) (skipn 8 a))
    as [Hl Hr]; [rewrite length_skipn; lia|].
  unfold block_sum.
  destruct (unrolled _ _ _) as [r rest]. cbn [fst snd] in Hl, Hr.
  rewrite length_firstn in Hl.
  replace (Nat.min 8 (List.length a)) with 8%nat in Hl by lia.
  destruct r as [|r0 [|r1 [|r2 [|r3 [|r4 [|r5 [|r6 [|r7 [|r8 r]]]]]]]]];
    try discriminate.
  exists r0, r1, r2, r3, r4, r5, r6, r7, rest. auto.
Qed.

(** Fewer than eight cells are added one after the other. *)
Lemma sum_of_few (x : float) (xs : list float) :
  (List.length (x :: xs) < 8)%nat ->
  Float64.sum (x :: xs)
  = (-0 + fold_left PrimFloat.add (fill0 (x :: xs)) (-0))%float.
Proof.
  intros H. unfold Float64.sum, ndarray_sum.
  change (fill0 (x :: xs)) with ((if isna x then 0%float else x) :: fill0 xs).
  rewrite pairwise_sum_unfold.
  assert (E : (List.length ((if isna x then 0%float else x) :: fill0 xs) <? 8)%nat
              = true).
  { apply Nat.ltb_lt. unfold fill0. simpl. rewrite length_map.
    simpl in H. exact H. }
  rewrite E. reflexivity.
Qed.

End SummationFuel.
(* ================================================================== *)
(** * The filter engine *)

Section FilterFacts.

Variable df : DataFrame.
Variable sel : selection.

Lemma filter_filter {A} (p q : A -> bool) (l : list A) :
  filter q (filter p l) = filter (fun x => p x && q x) l.
Proof.
  induction l as [|x l IH]; simpl; [reflexivity|].
  destruct (p x); simpl; [destruct (q x)|]; rewrite IH; reflexivity.
Qed.

Lemma filter_true {A} (l : list A) : filter (fun _ => true) l = l.
Proof. induction l; simpl; congruence. Qed.

(** The four successive selections keep the rows that pass all six
    predicates, in row order. *)
Lemma filtered_df_passes : filtered_df df sel = filter (passes sel) df.
Proof.
  unfold filtered_df, passes, format_mask, year_mask.
  rewrite filter_filter.
  destruct (negb (String.eqb (format_filter sel) "All Formats"));
    destruct (year_filter sel); rewrite ?filter_filter;
    apply filter_ext; intros r;
    rewrite ?andb_true_r, ?andb_assoc; reflexivity.
Qed.

Lemma in_filtered_df (r : row) :
  In r (filtered_df df sel) <-> In r df /\ passes sel r = true.
Proof. rewrite filtered_df_passes. apply filter_In. Qed.

Lemma passes_masks (r : row) :
  passes sel r = true <->
  genre_mask sel r = true /\ author_mask sel r = true /\
  price_mask sel r = true /\ rating_mask sel r = true /\
  format_mask sel r = true /\ year_mask sel r = true.
Proof. unfold passes. rewrite !andb_true_iff. tauto. Qed.

Lemma genre_mask_notna (r : row) :
  genre_mask sel r = true -> cell_notna (Genre r) = true.
Proof.
  unfold genre_mask.
  destruct (all_selected _ _); [auto|].
  destruct (Genre r); [reflexivity | discriminate].
Qed.

Lemma author_mask_notna (r : row) :
  author_mask sel r = true -> cell_notna (Author r) = true.
Proof.
  unfold author_mask.
  destruct (all_selected _ _); [auto|].
  destruct (Author r); [reflexivity | discriminate].
Qed.

Lemma rating_mask_notna (r : row) :
  rating_mask sel r = true -> Float64.isna (Rating r) = false.
Proof. intros H. apply Float64Facts.leb_notna in H. tauto. Qed.

Lemma price_mask_notna (r : row) :
  price_mask sel r = true -> Float64.isna (price r) = false.
Proof. apply Float64Facts.between_notna. Qed.

End FilterFacts.

(** The filters combine as a conjunction: [filtered_df] is the frame
    filtered once by the conjunction of the six predicates, so its rows
    are rows of the frame in the order of the frame, and the order of the
    four selection steps does not matter. *)
Theorem filters_combine_as_a_conjunction (df : DataFrame) (sel : selection) :
  filtered_df df sel = filter (passes sel) df
  /\ filtered_df df sel
     = filter (fun r => genre_mask sel r && author_mask sel r)
         (filter (fun r => price_mask sel r && rating_mask sel r)
            (filter (year_mask sel) (filter (format_mask sel) df))).
Proof.
  split; [apply filtered_df_passes|].
  rewrite filtered_df_passes, !filter_filter.
  apply filter_ext. intros r. unfold passes.
  destruct (genre_mask sel r), (author_mask sel r), (price_mask sel r),
    (rating_mask sel r), (format_mask sel r), (year_mask sel r); reflexivity.
Qed.

(** C1.  Rating filter semantics.  For every cleaned frame and every
    selection, a row is in [filtered_df] exactly when it is a row of the
    frame that passes the genre, author, price, format and year predicates
    and whose rating satisfies [Rating >= rating_filter]; and once the
    threshold is above zero no row of [filtered_df] has a missing (NaN)
    rating, a NaN failing the comparison. *)
Theorem rating_filter_semantics (df : DataFrame) (sel : selection) :
  (forall r : row,
      In r (filtered_df df sel) <->
      In r df /\ genre_mask sel r = true /\ author_mask sel r = true /\
      price_mask sel r = true /\
      (rating_filter sel <=? Rating r)%float = true /\
      format_mask sel r = true /\ year_mask sel r = true)
  /\ ((0 <? rating_filter sel)%float = true ->
      forall r : row,
        In r df -> Float64.isna (Rating r) = true ->
        rating_mask sel r = false /\ ~ In r (filtered_df df sel)).
Proof.
  split.
  - intros r. rewrite in_filtered_df, passes_masks. reflexivity.
  - intros _ r _ Hna.
    assert (Hm : rating_mask sel r = false).
    { destruct (rating_mask sel r) eqn:E; [|reflexivity].
      apply rating_mask_notna in E. congruence. }
    split; [exact Hm|].
    rewrite in_filtered_df, passes_masks. intros [_ (_ & _ & _ & H & _)].
    congruence.
Qed.

Lemma filtered_df_fields_present (df : DataFrame) (sel : selection) (r : row) :
  In r (filtered_df df sel) ->
  cell_notna (Genre r) = true /\ cell_notna (Author r) = true /\
  Float64.isna (Rating r) = false /\ Float64.isna (price r) = false.
Proof.
  intros Hr. apply in_filtered_df in Hr as [_ Hp].
  apply passes_masks in Hp as (Hg & Ha & Hp & Hr & _).
  repeat split;
    eauto using genre_mask_notna, author_mask_notna, rating_mask_notna,
      price_mask_notna.
Qed.

(** C9.  Every row of [filtered_df], for every selection (the default
    all-pass one with threshold 0 included), has a genre, an author, a
    rating and a price that are present: the genre and author masks ask
    for the field, whether all or some names are selected, and a NaN
    fails both the price range test and the rating comparison. *)
Theorem filtered_rows_have_no_missing_key_fields (df : DataFrame) (sel : selection) :
  Forall (fun r : row =>
            cell_notna (Genre r) = true /\ cell_notna (Author r) = true /\
            Float64.isna (Rating r) = false /\ Float64.isna (price r) = false)
         (filtered_df df sel).
Proof.
  apply Forall_forall. intros r Hr.
  eapply filtered_df_fields_present. eassumption.
Qed.

Lemma rating_filter_semantics_witness :
  (0 <? rating_filter (Examples.select ["All Genres"%string] 4))%float = true /\
  Forall (fun r : row =>
            Float64.isna (Rating r) = true ->
            rating_mask (Examples.select ["All Genres"%string] 4) r = false /\
            ~ In r (filtered_df
                      (Examples.frame_of [Examples.raw3; Examples.raw_unrated])
                      (Examples.select ["All Genres"%string] 4)))
         (Examples.frame_of [Examples.raw3; Examples.raw_unrated]).
Proof.
  split; [reflexivity|].
  apply Forall_forall. intros r Hr Hna.
  apply (proj2 (rating_filter_semantics
                  (Examples.frame_of [Examples.raw3; Examples.raw_unrated])
                  (Examples.select ["All Genres"%string] 4)));
    [reflexivity | exact Hr | exact Hna].
Defined.

(* ------------------------------------------------------------------ *)
(** ** Narrowing a selection *)

Section Narrowing.

Lemma existsb_incl (p : string -> bool) (l' l : list string) :
  incl l' l -> existsb p l' = true -> existsb p l = true.
Proof.
  intros Hi H. apply existsb_exists in H as (x & Hx & Hp).
  apply existsb_exists. exists x. auto.
Qed.

Lemma all_selected_nonempty (sentinel : string) (chosen : list string) :
  chosen <> [] ->
  all_selected sentinel chosen = existsb (String.eqb sentinel) chosen.
Proof.
  unfold all_selected. destruct chosen; [congruence|].
  intros _. simpl. apply orb_false_r.
Qed.

Lemma cell_isin_notna (c : option string) (values : list string) :
  cell_isin c values = true -> cell_notna c = true.
Proof. destruct c; [reflexivity | discriminate]. Qed.

Lemma choice_mask_notna sentinel chosen c :
  choice_mask sentinel chosen c = true -> cell_notna c = true.
Proof.
  unfold choice_mask. destruct (all_selected sentinel chosen); [auto|].
  apply cell_isin_notna.
Qed.

Lemma choice_mask_narrower sentinel chosen' chosen c :
  narrower_choice sentinel chosen' chosen ->
  choice_mask sentinel chosen' c = true -> choice_mask sentinel chosen c = true.
Proof.
  intros [Hall|[Hi Hne]] H.
  - (* the other selection lets every row with the field through *)
    unfold choice_mask at 1. rewrite Hall.
    eapply choice_mask_notna. eassumption.
  - unfold choice_mask in *.
    rewrite all_selected_nonempty in H by assumption.
    destruct (existsb (String.eqb sentinel) chosen') eqn:E'.
    + (* the sentinel is among the entries kept: the other has it too *)
      unfold all_selected. erewrite existsb_incl by eassumption.
      simpl. assumption.
    + destruct (all_selected sentinel chosen); [eapply cell_isin_notna; eassumption|].
      destruct c as [s|]; simpl in *; [|assumption].
      eapply existsb_incl; eassumption.
Qed.

Lemma filter_length_le {A} (p q : A -> bool) (l : list A) :
  (forall x, In x l -> p x = true -> q x = true) ->
  (List.length (filter p l) <= List.length (filter q l))%nat.
Proof.
  induction l as [|x l IH]; intros H; simpl; [lia|].
  assert (IH' := IH (fun y Hy => H y (or_intror Hy))).
  destruct (p x) eqn:Ep.
  - rewrite (H x (or_introl eq_refl) Ep). simpl. lia.
  - destruct (q x); simpl; lia.
Qed.

Lemma narrows_passes (sel' sel : selection) (r : row) :
  narrows sel' sel -> passes sel' r = true -> passes sel r = true.
Proof.
  intros [Hg Ha Hlo Hhi Hr Hf Hy].
  rewrite !passes_masks. intros (Mg & Ma & Mp & Mr & Mf & My).
  repeat split.
  - exact (choice_mask_narrower _ _ _ (Genre r) Hg Mg).
  - exact (choice_mask_narrower _ _ _ (Author r) Ha Ma).
  - unfold price_mask in *. eapply Float64Facts.between_widen; eassumption.
  - unfold rating_mask in *.
    destruct Hr as [Hr|Hr]; [eapply Float64Facts.leb_trans; eassumption|].
    rewrite <- Hr. assumption.
  - unfold format_mask in *.
    destruct Hf as [Hf|Hf]; [rewrite Hf; reflexivity | rewrite <- Hf; assumption].
  - unfold year_mask in *.
    destruct Hy as [Hy|Hy]; [rewrite Hy; reflexivity | rewrite <- Hy; assumption].
Qed.

End Narrowing.

(** C5, as stated, fails.  Over a frame of one fiction and one poetry
    book, the selection of the genre ["Fiction"] keeps one row; the
    selection that differs from it only by a smaller genre set, the empty
    one, keeps both rows. *)
Lemma smaller_genre_set_can_enlarge_the_subset :
  smaller_choice
    (genre_filter (Examples.select [] 0))
    (genre_filter (Examples.select ["Fiction"%string] 0))
  /\ author_filter (Examples.select [] 0)
     = author_filter (Examples.select ["Fiction"%string] 0)
  /\ price_range (Examples.select [] 0)
     = price_range (Examples.select ["Fiction"%string] 0)
  /\ rating_filter (Examples.select [] 0)
     = rating_filter (Examples.select ["Fiction"%string] 0)
  /\ format_filter (Examples.select [] 0)
     = format_filter (Examples.select ["Fiction"%string] 0)
  /\ year_filter (Examples.select [] 0)
     = year_filter (Examples.select ["Fiction"%string] 0)
  /\ List.length (filtered_df (Examples.frame_of [Examples.raw3; Examples.raw_poetry])
                    (Examples.select ["Fiction"%string] 0)) = 1%nat
  /\ List.length (filtered_df (Examples.frame_of [Examples.raw3; Examples.raw_poetry])
                    (Examples.select [] 0)) = 2%nat.
Proof.
  repeat split; try reflexivity.
  intros x [].
Qed.

(** C5, amended.  If a selection differs from another only by filters that
    are narrowed (a higher minimum rating, a tighter price range, a format
    or a year in place of "all", a smaller genre or author selection that
    is not emptied), its filtered subset is a subset no larger than the
    other's. *)
Theorem narrowing_never_enlarges_the_subset (df : DataFrame) (sel' sel : selection) :
  narrows sel' sel ->
  (List.length (filtered_df df sel') <= List.length (filtered_df df sel))%nat
  /\ incl (filtered_df df sel') (filtered_df df sel).
Proof.
  intros H. rewrite !filtered_df_passes. split.
  - apply filter_length_le. intros r _. apply narrows_passes. exact H.
  - intros r. rewrite !filter_In. intros [Hin Hp].
    split; [assumption|]. eapply narrows_passes; eassumption.
Qed.

Lemma narrowing_never_enlarges_the_subset_witness :
  (List.length (filtered_df (Examples.frame_of [Examples.raw3; Examples.raw_poetry])
                  (Examples.select ["Poetry"%string] 4.6))
   <= List.length (filtered_df (Examples.frame_of [Examples.raw3; Examples.raw_poetry])
                     (Examples.select ["Poetry"%string; "Fiction"%string] 4)))%nat
  /\ incl (filtered_df (Examples.frame_of [Examples.raw3; Examples.raw_poetry])
             (Examples.select ["Poetry"%string] 4.6))
          (filtered_df (Examples.frame_of [Examples.raw3; Examples.raw_poetry])
             (Examples.select ["Poetry"%string; "Fiction"%string] 4)).
Proof.
  apply (narrowing_never_enlarges_the_subset
           (Examples.frame_of [Examples.raw3; Examples.raw_poetry])
           (Examples.select ["Poetry"%string] 4.6)
           (Examples.select ["Poetry"%string; "Fiction"%string] 4)).
  constructor; simpl.
  - right. split; [|discriminate].
    intros x [<-|[]]. left. reflexivity.
  - left. reflexivity.
  - right. reflexivity.
  - right. reflexivity.
  - left. reflexivity.
  - right. reflexivity.
  - right. reflexivity.
Defined.

(* ================================================================== *)
(** * KPIs of an empty subset *)

(** C6.  When the filtered subset is empty the KPI computation, a total
    function, yields a count of 0, sums of reviews and of estimated revenue
    equal to 0, and a mean rating and a mean price that are NaN. *)
Theorem kpis_of_empty_subset (df : DataFrame) (sel : selection) :
  filtered_df df sel = [] ->
  total_books (kpis (filtered_df df sel)) = 0%Z
  /\ total_reviews (kpis (filtered_df df sel)) = 0%Z
  /\ total_revenue (kpis (filtered_df df sel)) = 0%float
  /\ Float64.isna (avg_rating (kpis (filtered_df df sel))) = true
  /\ Float64.isna (avg_price (kpis (filtered_df df sel))) = true
  /\ Float64.isna (Float64.mean (map Rating (filtered_df df sel))) = true
  /\ Float64.isna (Float64.mean (map price (filtered_df df sel))) = true.
Proof.
  intros ->. repeat split.
Qed.

Lemma kpis_of_empty_subset_witness :
  filtered_df Examples.one_book Examples.above_4_6 = []
  /\ (total_books (kpis (filtered_df Examples.one_book Examples.above_4_6))
      = 0%Z
      /\ total_reviews (kpis (filtered_df Examples.one_book Examples.above_4_6))
         = 0%Z
      /\ total_revenue (kpis (filtered_df Examples.one_book Examples.above_4_6))
         = 0%float
      /\ Float64.isna
           (avg_rating (kpis (filtered_df Examples.one_book Examples.above_4_6)))
         = true
      /\ Float64.isna
           (avg_price (kpis (filtered_df Examples.one_book Examples.above_4_6)))
         = true
      /\ Float64.isna
           (Float64.mean
              (map Rating (filtered_df Examples.one_book Examples.above_4_6)))
         = true
      /\ Float64.isna
           (Float64.mean
              (map price (filtered_df Examples.one_book Examples.above_4_6)))
         = true).
Proof.
  split; [reflexivity|].
  apply (kpis_of_empty_subset Examples.one_book Examples.above_4_6).
  reflexivity.
Defined.

(* ================================================================== *)
(** * Facts about the text operations *)

Module PyFacts.

Import Py PyShape.
Local Open Scope char_scope.

Lemma is_digit_cases (c : ascii) :
  is_digit c = true ->
  In c ["0"; "1"; "2"; "3"; "4"; "5"; "6"; "7"; "8"; "9"].
Proof.
  destruct c as [[] [] [] [] [] [] [] []]; vm_compute;
    try discriminate; intros _; tauto.
Qed.

Ltac digit_cases c H :=
  apply is_digit_cases in H; simpl in H;
  repeat (destruct H as [H|H]; [subst c|]); [..|contradiction].

Lemma decimal_char_facts (c : ascii) :
  (is_digit c || Ascii.eqb c ".")%bool = true ->
  is_space c = false /\ Ascii.eqb c "_" = false.
Proof.
  intros H. apply orb_prop in H as [H|H].
  - digit_cases c H; split; reflexivity.
  - apply Ascii.eqb_eq in H. subst c. split; reflexivity.
Qed.

Lemma decimal_text_app (s t : string) :
  decimal_text (s ++ t) = (decimal_text s && decimal_text t)%bool.
Proof.
  induction s as [|c s IH]; simpl; [reflexivity|].
  rewrite IH, andb_assoc. reflexivity.
Qed.

Lemma all_digits_decimal_text (s : string) :
  all_digits s = true -> decimal_text s = true.
Proof.
  induction s as [|c s IH]; simpl; [reflexivity|].
  intros H. apply andb_prop in H as [Hc Hs].
  rewrite Hc, IH by assumption. reflexivity.
Qed.

Lemma lstrip_decimal_text (s : string) : decimal_text s = true -> lstrip s = s.
Proof.
  destruct s as [|c s]; simpl; [reflexivity|].
  intros H. apply andb_prop in H as [Hc _].
  apply decimal_char_facts in Hc as [-> _]. reflexivity.
Qed.

Lemma rstrip_decimal_text (s : string) : decimal_text s = true -> rstrip s = s.
Proof.
  induction s as [|c s IH]; simpl; [reflexivity|].
  intros H. apply andb_prop in H as [Hc Hs].
  rewrite IH by assumption.
  apply decimal_char_facts in Hc as [-> _].
  destruct s; reflexivity.
Qed.

Lemma strip_decimal_text (s : string) : decimal_text s = true -> strip s = s.
Proof.
  intros H. unfold strip.
  rewrite lstrip_decimal_text, rstrip_decimal_text by assumption.
  reflexivity.
Qed.

Lemma drop_underscores_decimal_text (s : string) (prev : bool) :
  decimal_text s = true -> drop_underscores prev s = Some s.
Proof.
  revert prev. induction s as [|c s IH]; intros prev; simpl; [reflexivity|].
  intros H. apply andb_prop in H as [Hc Hs].
  apply decimal_char_facts in Hc as [_ ->].
  rewrite IH by assumption. reflexivity.
Qed.

Lemma span_digits_spec (s d r : string) :
  span_digits s = (d, r) ->
  s = (d ++ r)%string /\ all_digits d = true /\ no_digit_ahead r = true.
Proof.
  revert d r. induction s as [|c s IH]; simpl; intros d r H.
  - inversion H; subst. repeat split.
  - destruct (is_digit c) eqn:Hc.
    + destruct (span_digits s) as [d' r'] eqn:E.
      inversion H; subst. destruct (IH _ _ eq_refl) as (-> & Hd & Hr).
      simpl. rewrite Hc, Hd. repeat split. assumption.
    + inversion H; subst. simpl. rewrite Hc. repeat split.
Qed.

Lemma span_digits_app (d r : string) :
  all_digits d = true -> no_digit_ahead r = true ->
  span_digits (d ++ r) = (d, r).
Proof.
  intros Hd Hr. induction d as [|c d IH]; simpl.
  - destruct r as [|c r]; [reflexivity|].
    simpl in Hr. apply negb_true_iff in Hr. simpl. rewrite Hr. reflexivity.
  - simpl in Hd. apply andb_prop in Hd as [Hc Hd].
    rewrite Hc, IH by assumption. reflexivity.
Qed.

(** A match of [\d+\.\d+] is digits, a dot, digits. *)
Lemma match_decimal_here_shape (s m : string) :
  match_decimal_here s = Some m ->
  exists c ip fp,
    m = (String c ip ++ String "." fp)%string /\
    all_digits (String c ip) = true /\ all_digits fp = true /\
    fp <> EmptyString.
Proof.
  unfold match_decimal_here.
  destruct (span_digits s) as [ip r] eqn:E1.
  destruct ip as [|c ip]; [discriminate|].
  destruct r as [|dot r]; [discriminate|].
  destruct (Ascii.eqb_spec dot ".") as [->|Hne].
  2:{ destruct dot as [[] [] [] [] [] [] [] []]; try discriminate.
      congruence. }
  destruct (span_digits r) as [fp r'] eqn:E2.
  destruct fp as [|c' fp]; [discriminate|].
  intros H. inversion H; subst. clear H.
  apply span_digits_spec in E1 as (_ & H1 & _).
  apply span_digits_spec in E2 as (_ & H2 & _).
  exists c, ip, (String c' fp). repeat split; try assumption. discriminate.
Qed.

Lemma search_decimal_unfold (s : string) :
  search_decimal s =
  match match_decimal_here s with
  | Some m => Some m
  | None => match s with
            | EmptyString => None
            | String _ t => search_decimal t
            end
  end.
Proof. destruct s; reflexivity. Qed.

Lemma search_decimal_shape (s m : string) :
  search_decimal s = Some m ->
  exists c ip fp,
    m = (String c ip ++ String "." fp)%string /\
    all_digits (String c ip) = true /\ all_digits fp = true /\
    fp <> EmptyString.
Proof.
  induction s as [|a s IH]; rewrite search_decimal_unfold.
  - destruct (match_decimal_here EmptyString) eqn:E; [|discriminate].
    intros H. inversion H; subst. eapply match_decimal_here_shape; eassumption.
  - destruct (match_decimal_here (String a s)) eqn:E.
    + intros H. inversion H; subst. eapply match_decimal_here_shape; eassumption.
    + exact IH.
Qed.

(** [float] accepts whatever the rating pattern matches. *)
Lemma float_of_str_search_decimal (s m : string) :
  search_decimal s = Some m -> exists x, float_of_str m = Some x.
Proof.
  intros H. apply search_decimal_shape in H as (c & ip & fp & -> & Hip & Hfp & Hne).
  assert (Hdec : decimal_text (String c ip ++ String "." fp) = true).
  { rewrite decimal_text_app.
    rewrite (all_digits_decimal_text _ Hip). simpl.
    rewrite (all_digits_decimal_text _ Hfp). reflexivity. }
  unfold float_of_str.
  rewrite strip_decimal_text, drop_underscores_decimal_text by assumption.
  assert (Hspan : span_digits (String c ip ++ String "." fp)
                  = (String c ip, String "." fp))
    by (apply span_digits_app; [assumption | reflexivity]).
  assert (Hfrac : span_digits fp = (fp, EmptyString)).
  { clear - Hfp. induction fp as [|a fp IH]; simpl; [reflexivity|].
    simpl in Hfp. apply andb_prop in Hfp as [Ha Hfp].
    rewrite Ha, IH by assumption. reflexivity. }
  simpl in Hip. apply andb_prop in Hip as [Hc Hip].
  assert (Hsign : take_sign (String c ip ++ String "." fp)
                  = (false, (String c ip ++ String "." fp)%string))
    by (digit_cases c Hc; reflexivity).
  rewrite Hsign.
  assert (Hinf : forall w : string,
             String.eqb (lower (String c ip ++ String "." fp)) (String "i" w) = false)
    by (intros w; digit_cases c Hc; reflexivity).
  assert (Hnan : forall w : string,
             String.eqb (lower (String c ip ++ String "." fp)) (String "n" w) = false)
    by (intros w; digit_cases c Hc; reflexivity).
  rewrite !Hinf, Hnan. simpl orb. cbv iota.
  rewrite Hspan, Hfrac. simpl.
  eexists. reflexivity.
Qed.

End PyFacts.

(* ================================================================== *)
(** * The loader *)

Section OutcomeFacts.

Context {A B : Type} (f : A -> outcome B).

Lemma mapM_Returned (l : list A) (l' : list B) :
  mapM f l = Returned l' -> Forall2 (fun a b => f a = Returned b) l l'.
Proof.
  revert l'. induction l as [|a l IH]; simpl; intros l' H.
  - inversion H. constructor.
  - destruct (f a) as [b|e] eqn:Ea; simpl in H; [|discriminate].
    destruct (mapM f l) as [bs|e]; simpl in H; [|discriminate].
    inversion H; subst. constructor; auto.
Qed.

Lemma mapM_all_return (l : list A) :
  Forall (fun a => exists b, f a = Returned b) l ->
  exists l', mapM f l = Returned l'.
Proof.
  induction 1 as [|a l [b Hb] _ [bs IH]]; simpl.
  - eexists; reflexivity.
  - rewrite Hb, IH. simpl. eexists; reflexivity.
Qed.

Lemma mapM_one_raises (l : list A) (a : A) (e : exn) :
  In a l -> f a = Raised e -> exists e', mapM f l = Raised e'.
Proof.
  induction l as [|x l IH]; simpl; [contradiction|].
  intros [->|Hin] Ha.
  - rewrite Ha. simpl. eauto.
  - destruct (f x); simpl; [|eauto].
    destruct (IH Hin Ha) as [e' ->]. simpl. eauto.
Qed.

End OutcomeFacts.

Lemma Forall2_nth_error_l {A B} (R : A -> B -> Prop) (l : list A) (l' : list B)
    (i : nat) (a : A) :
  Forall2 R l l' -> nth_error l i = Some a ->
  exists b, nth_error l' i = Some b /\ R a b.
Proof.
  intros H. revert i. induction H as [|x y l l' Hxy _ IH]; intros [|i]; simpl;
    try discriminate.
  - intros E. inversion E; subst. eauto.
  - apply IH.
Qed.

Section LoaderFacts.

Variable log1p : float -> float.
Variable to_datetime_cell : list (option string) -> string -> option Timestamp.


Lemma rating_cell_returns (r : raw_row) : exists x, rating_cell r = Returned x.
Proof.
  unfold rating_cell, str_extract_decimal, astype_float_cell.
  destruct (raw_Rating r) as [|s|x]; [eauto| |eauto].
  destruct (Py.search_decimal s) as [m|] eqn:E; [|eauto].
  destruct (PyFacts.float_of_str_search_decimal _ _ E) as [x ->]. eauto.
Qed.

(** The accessor is there exactly for a text column, and what it raises
    otherwise is [AttributeError]. *)
Lemma existsb_is_text (column : list cell) :
  existsb is_text column = true <-> exists s, In (Text s) column.
Proof.
  rewrite existsb_exists. split.
  - intros ([|s|x] & Hin & Ht); try discriminate. eauto.
  - intros (s & Hin). exists (Text s). auto.
Qed.

Lemma str_accessor_returns (column : list cell) :
  str_accessor column = Returned tt <-> text_column column.
Proof.
  unfold str_accessor, text_column. destruct column as [|c column].
  - split; auto.
  - destruct (existsb is_text (c :: column)) eqn:E.
    + apply existsb_is_text in E. split; auto.
    + split; [discriminate|]. intros [H|H]; [discriminate|].
      apply existsb_is_text in H. congruence.
Qed.


Lemma str_accessor_cases (column : list cell) :
  str_accessor column = Returned tt \/ str_accessor column = Raised AttributeError.
Proof.
  unfold str_accessor. destruct column; [auto|].
  destruct (existsb _ _); auto.
Qed.

(** An identifier that converts is text, so a column of identifiers that
    convert has the accessor. *)
Lemma id_converts_text (r : raw_row) :
  id_converts r -> exists s, raw_id r = Text s.
Proof.
  intros [k H]. unfold rank_cell, str_replace_hash in H.
  destruct (raw_id r) as [|s|x]; try discriminate. eauto.
Qed.

Lemma ids_convert_text_column (raw : list raw_row) :
  Forall id_converts raw -> text_column (map raw_id raw).
Proof.
  destruct raw as [|r raw]; [left; reflexivity|].
  intros H. right. inversion H as [|? ? Hr _]; subst.
  destruct (id_converts_text r Hr) as [s Hs].
  exists s. simpl. left. exact Hs.
Qed.

Lemma Forall2_map_l {X Y Z} (R : Y -> Z -> Prop) (g : X -> Y) l l' :
  Forall2 R (map g l) l' -> Forall2 (fun x z => R (g x) z) l l'.
Proof.
  revert l'. induction l as [|x l IH]; simpl; intros l' H;
    inversion H; subst; constructor; auto.
Qed.

Lemma assemble_rows (g : option string -> option Timestamp)
    (df : list raw_row) rating price rank :
  Forall2 (fun r x => rating_cell r = Returned x) df rating ->
  Forall2 (fun r x => price_cell r = Returned x) df price ->
  Forall2 (fun r x => rank_cell r = Returned x) df rank ->
  Forall2 (fun r x =>
             exists ra p k,
               rating_cell r = Returned ra /\ price_cell r = Returned p /\
               rank_cell r = Returned k /\
               x = clean_row log1p r ra p k (g (raw_Publishing_date r)))
          df (assemble log1p df rating price rank
                (map g (map raw_Publishing_date df))).
Proof.
  intros H. revert price rank.
  induction H as [|r ra df rating Hra _ IH]; intros price rank Hp Hk;
    inversion Hp; subst; inversion Hk; subst; simpl; constructor.
  - exists ra. eauto 10.
  - apply IH; assumption.
Qed.

(** The frame [load_data] returns has one cleaned row per line, in the
    order of the lines. *)
Lemma load_data_rows (raw : list raw_row) (df : DataFrame) :
  load_data log1p to_datetime_cell (Some raw) = Returned (Some df) ->
  Forall2 (row_cleaned log1p to_datetime_cell (map raw_Publishing_date raw)) raw df.
Proof.
  unfold load_data, row_cleaned.
  destruct (str_accessor (map raw_Rating raw)) as [[]|]; simpl; [|discriminate].
  destruct (mapM _ (map (fun r => str_extract_decimal (raw_Rating r)) raw))
    as [rating|] eqn:E1; simpl; [|discriminate].
  destruct (mapM _ (map (fun r => replace_dollar_comma (raw_price r)) raw))
    as [price|] eqn:E2; simpl; [|discriminate].
  destruct (str_accessor (map raw_id raw)) as [[]|]; simpl; [|discriminate].
  destruct (mapM _ (map (fun r => str_replace_hash (raw_id r)) raw))
    as [rank|] eqn:E3; simpl; [|discriminate].
  intros H. inversion H; subst. clear H.
  apply mapM_Returned, Forall2_map_l in E1, E2, E3.
  unfold to_datetime.
  apply (assemble_rows (coerce_cell to_datetime_cell (map raw_Publishing_date raw)));
    assumption.
Qed.

Lemma mapM_map {X Y Z} (f : Y -> outcome Z) (g : X -> Y) (l : list X) :
  mapM f (map g l) = mapM (fun x => f (g x)) l.
Proof. induction l as [|x l IH]; simpl; [|rewrite IH]; reflexivity. Qed.

(** The frame is returned only if the rating column has the accessor. *)
Lemma load_data_rating_text (raw : list raw_row) (df : option DataFrame) :
  load_data log1p to_datetime_cell (Some raw) = Returned df ->
  text_column (map raw_Rating raw).
Proof.
  unfold load_data. intros H. apply str_accessor_returns.
  destruct (str_accessor (map raw_Rating raw)) as [[]|]; [reflexivity|].
  discriminate.
Qed.

(** The load returns a frame exactly when the rating column has the
    accessor and every price and every identifier converts; nothing else
    can make it raise. *)
Lemma load_data_returns_iff (raw : list raw_row) :
  (exists df, load_data log1p to_datetime_cell (Some raw) = Returned (Some df)) <->
  text_column (map raw_Rating raw)
  /\ Forall price_converts raw /\ Forall id_converts raw.
Proof.
  split.
  - intros [df H]. split; [exact (load_data_rating_text _ _ H)|].
    apply load_data_rows in H.
    split; apply Forall_forall; intros r Hr;
      destruct (In_nth_error _ _ Hr) as [i Hi];
      destruct (Forall2_nth_error_l _ _ _ _ _ H Hi) as (x & _ & ra & p & k & _ & Hp & Hk & _);
      [exists p | exists k]; assumption.
  - intros (Ht & Hp & Hk). unfold load_data.
    rewrite (proj2 (str_accessor_returns _) Ht).
    rewrite (proj2 (str_accessor_returns _) (ids_convert_text_column raw Hk)).
    simpl. rewrite !mapM_map.
    destruct (mapM_all_return rating_cell raw) as [rating E1].
    { apply Forall_forall. intros r _. apply rating_cell_returns. }
    destruct (mapM_all_return price_cell raw Hp) as [price E2].
    destruct (mapM_all_return rank_cell raw Hk) as [rank E3].
    unfold rating_cell, price_cell, rank_cell in *.
    rewrite E1, E2, E3. simpl. eauto.
Qed.



Lemma price_unparseable_raises (r : raw_row) :
  price_unparseable r -> price_cell r = Raised ValueError.
Proof.
  intros (s & Hs & Hf). unfold price_cell. rewrite Hs. simpl. rewrite Hf.
  reflexivity.
Qed.

Lemma id_unparseable_raises (r : raw_row) :
  id_unparseable r -> rank_cell r = Raised ValueError.
Proof.
  intros (s & Hs & Hf). unfold rank_cell. rewrite Hs. simpl. rewrite Hf.
  reflexivity.
Qed.

End LoaderFacts.


(** C7, as stated, fails.  The identifier ["1#2"] has no leading hash sign
    and is not an integer literal, yet the load returns a frame: the code
    removes the inner hash sign and reads rank 12. *)
Lemma inner_hash_identifier_loads :
  raw_id Examples.raw_inner_hash = Text "1#2"%string
  /\ Py.int_of_str (strip_leading_hash "1#2") = None
  /\ is_raised (load_data Examples.log1p_example Examples.iso_date
                  (Some [Examples.raw_inner_hash])) = false
  /\ option_map (map Rank)
       (match load_data Examples.log1p_example Examples.iso_date
                (Some [Examples.raw_inner_hash]) with
        | Returned df => df
        | Raised _ => None
        end) = Some [12%Z].
Proof. repeat split. Qed.

(** C7, amended.  If the price of some line, once its dollar signs and
    commas are removed, is not a float literal, or its identifier, once
    every hash sign is removed, is not an integer literal, then the load
    raises: no frame is returned, neither a partial one nor one with the
    line skipped or marked. *)
Theorem strict_price_and_rank_parsing_is_fatal
    (log1p : float -> float)
    (to_datetime_cell : list (option string) -> string -> option Timestamp)
    (raw : list raw_row) :
  (exists r, In r raw /\ (price_unparseable r \/ id_unparseable r)) ->
  (exists e, load_data log1p to_datetime_cell (Some raw) = Raised e)
  /\ (forall df, load_data log1p to_datetime_cell (Some raw) <> Returned df).
Proof.
  intros (r & Hin & Hbad).
  assert (H : exists e, load_data log1p to_datetime_cell (Some raw) = Raised e).
  { unfold load_data. rewrite !mapM_map.
    destruct (str_accessor (map raw_Rating raw)) as [[]|e]; simpl; [|eauto].
    destruct (mapM _ raw) as [rating|e]; simpl; [|eauto].
    destruct Hbad as [Hp|Hk].
    - apply price_unparseable_raises in Hp.
      destruct (mapM_one_raises price_cell raw r _ Hin Hp) as [e E].
      unfold price_cell in E. rewrite E. simpl. eauto.
    - destruct (mapM _ raw) as [price|e]; simpl; [|eauto].
      destruct (str_accessor (map raw_id raw)) as [[]|e]; simpl; [|eauto].
      apply id_unparseable_raises in Hk.
      destruct (mapM_one_raises rank_cell raw r _ Hin Hk) as [e E].
      unfold rank_cell in E. rewrite E. simpl. eauto. }
  split; [exact H|].
  destruct H as [e ->]. discriminate.
Qed.

Lemma strict_price_and_rank_parsing_is_fatal_witness :
  (exists e, load_data Examples.log1p_example Examples.iso_date
               (Some [Examples.raw3; Examples.raw_bad_price]) = Raised e)
  /\ (forall df, load_data Examples.log1p_example Examples.iso_date
                   (Some [Examples.raw3; Examples.raw_bad_price]) <> Returned df).
Proof.
  apply (strict_price_and_rank_parsing_is_fatal
           Examples.log1p_example Examples.iso_date
           [Examples.raw3; Examples.raw_bad_price]).
  exists Examples.raw_bad_price. split.
  - right. left. reflexivity.
  - left. exists "12.99 USD"%string. split; reflexivity.
Defined.

(** C2.  A line with [id = "#3"], [Rating = "4.5 out of 5 stars"],
    [price = "$12.99"] and [reviews count = 1500], whatever its other
    cells, is loaded on its own without error, and in every frame loaded
    from lines among which it stands it is cleaned to rank 3, rating 4.5,
    price 12.99 and estimated revenue [price * reviews count = 19485.0]. *)
Theorem cleaning_example
    (log1p : float -> float)
    (to_datetime_cell : list (option string) -> string -> option Timestamp)
    (r : raw_row) :
  raw_id r = Text "#3"%string ->
  raw_Rating r = Text "4.5 out of 5 stars"%string ->
  raw_price r = Text "$12.99"%string ->
  raw_reviews_count r = 1500%Z ->
  (exists x, load_data log1p to_datetime_cell (Some [r]) = Returned (Some [x]))
  /\ (forall (raw : list raw_row) (df : DataFrame) (i : nat),
        nth_error raw i = Some r ->
        load_data log1p to_datetime_cell (Some raw) = Returned (Some df) ->
        exists x,
          nth_error df i = Some x
          /\ Rank x = 3%Z /\ Rating x = 4.5%float /\ price x = 12.99%float
          /\ reviews_count x = 1500%Z
          /\ Estimated_Revenue x = (price x * Float64.of_Z (reviews_count x))%float
          /\ Estimated_Revenue x = 19485%float).
Proof.
  intros Hid Hrating Hprice Hreviews.
  assert (Era : rating_cell r = Returned 4.5%float)
    by (unfold rating_cell; rewrite Hrating; reflexivity).
  assert (Ep : price_cell r = Returned 12.99%float)
    by (unfold price_cell; rewrite Hprice; reflexivity).
  assert (Ek : rank_cell r = Returned 3%Z)
    by (unfold rank_cell; rewrite Hid; reflexivity).
  split.
  - destruct (proj2 (load_data_returns_iff log1p to_datetime_cell [r]))
      as [df Hdf].
    { split; [right; eexists; left; exact Hrating|].
      split; repeat constructor; eexists; eassumption. }
    pose proof (load_data_rows _ _ _ _ Hdf) as H.
    inversion H as [|? x ? l' _ Hl]; subst. inversion Hl; subst. eauto.
  - intros raw df i Hi Hload.
    apply load_data_rows in Hload.
    destruct (Forall2_nth_error_l _ _ _ _ _ Hload Hi)
      as (x & Hx & ra & p & k & Hra & Hp & Hk & ->).
    rewrite Era in Hra. rewrite Ep in Hp. rewrite Ek in Hk.
    inversion Hra; inversion Hp; inversion Hk; subst.
    exists (clean_row log1p r 4.5 12.99 3
              (coerce_cell to_datetime_cell (map raw_Publishing_date raw)
                 (raw_Publishing_date r))).
    simpl. rewrite Hreviews. repeat split. exact Hx.
Qed.

Lemma cleaning_example_witness :
  (exists x, load_data Examples.log1p_example Examples.iso_date
               (Some [Examples.raw3]) = Returned (Some [x]))
  /\ (forall (raw : list raw_row) (df : DataFrame) (i : nat),
        nth_error raw i = Some Examples.raw3 ->
        load_data Examples.log1p_example Examples.iso_date (Some raw)
        = Returned (Some df) ->
        exists x,
          nth_error df i = Some x
          /\ Rank x = 3%Z /\ Rating x = 4.5%float /\ price x = 12.99%float
          /\ reviews_count x = 1500%Z
          /\ Estimated_Revenue x = (price x * Float64.of_Z (reviews_count x))%float
          /\ Estimated_Revenue x = 19485%float).
Proof.
  apply (cleaning_example Examples.log1p_example Examples.iso_date
           Examples.raw3); reflexivity.
Defined.

(** C8.  Date parsing is lenient.  No publishing date makes the load
    raise: whenever the rating column has the [.str] accessor and the
    prices and identifiers of the lines convert, the load returns a frame
    whatever the publishing dates are.  In every frame the load returns,
    the date of each row is the coerced parse of its cell, missing when
    the cell is missing or does not parse, and the year and the month of
    a row are missing exactly when its date is. *)
Theorem lenient_date_parsing
    (log1p : float -> float)
    (to_datetime_cell : list (option string) -> string -> option Timestamp)
    (raw : list raw_row) :
  text_column (map raw_Rating raw) ->
  Forall price_converts raw -> Forall id_converts raw ->
  exists df,
    load_data log1p to_datetime_cell (Some raw) = Returned (Some df)
    /\ Forall2
         (fun (r : raw_row) (x : row) =>
            Publishing_date x
            = coerce_cell to_datetime_cell (map raw_Publishing_date raw)
                (raw_Publishing_date r)
            /\ (raw_Publishing_date r = None -> Publishing_date x = None)
            /\ (forall s, raw_Publishing_date r = Some s ->
                          to_datetime_cell (map raw_Publishing_date raw) s = None ->
                          Publishing_date x = None)
            /\ (Year x = None <-> Publishing_date x = None)
            /\ (Month x = None <-> Publishing_date x = None))
         raw df.
Proof.
  intros Ht Hp Hk.
  destruct (proj2 (load_data_returns_iff log1p to_datetime_cell raw)
              (conj Ht (conj Hp Hk))) as [df Hdf].
  exists df. split; [exact Hdf|].
  apply load_data_rows in Hdf.
  eapply Forall2_impl; [|exact Hdf].
  intros r x (ra & p & k & _ & _ & _ & ->). simpl.
  split; [reflexivity|]. split; [intros ->; reflexivity|]. split.
  - intros s Hs Hnone. rewrite Hs. exact Hnone.
  - destruct (coerce_cell _ _ _); simpl; split; split; congruence.
Qed.

Lemma lenient_date_parsing_witness :
  exists df,
    load_data Examples.log1p_example Examples.iso_date
      (Some [Examples.raw3; Examples.raw_unrated]) = Returned (Some df)
    /\ Forall2
         (fun (r : raw_row) (x : row) =>
            Publishing_date x
            = coerce_cell Examples.iso_date
                (map raw_Publishing_date [Examples.raw3; Examples.raw_unrated])
                (raw_Publishing_date r)
            /\ (raw_Publishing_date r = None -> Publishing_date x = None)
            /\ (forall s, raw_Publishing_date r = Some s ->
                          Examples.iso_date
                            (map raw_Publishing_date
                               [Examples.raw3; Examples.raw_unrated]) s = None ->
                          Publishing_date x = None)
            /\ (Year x = None <-> Publishing_date x = None)
            /\ (Month x = None <-> Publishing_date x = None))
         [Examples.raw3; Examples.raw_unrated] df.
Proof.
  apply (lenient_date_parsing Examples.log1p_example Examples.iso_date
           [Examples.raw3; Examples.raw_unrated]).
  - right. exists "4.5 out of 5 stars"%string. left. reflexivity.
  - repeat constructor; eexists; reflexivity.
  - repeat constructor; eexists; reflexivity.
Defined.

(* ================================================================== *)
(** * Top-N selections *)

Section SelectNFacts.

Variables (T A : Type).
Variable isna : A -> bool.
Variable ltb : A -> A -> bool.
Variable col : T -> A.

Hypothesis ltb_asym : forall a b, ltb a b = true -> ltb b a = false.
Hypothesis ltb_negtrans :
  forall a b c, isna b = false ->
                ltb a b = false -> ltb b c = false -> ltb a c = false.
Hypothesis ltb_isna_l : forall a b, isna a = true -> ltb a b = false.
Hypothesis ltb_isna_r : forall a b, isna b = true -> ltb a b = false.

Let present (x : T) : bool := negb (isna (col x)).
Let insert := insert_desc ltb col.
Let sort := sort_desc ltb col.

Lemma insert_desc_perm (x : T) (l : list T) : Permutation (insert x l) (x :: l).
Proof.
  induction l as [|y l IH]; simpl; [reflexivity|].
  destruct (ltb (col x) (col y)); [|reflexivity].
  rewrite IH. apply perm_swap.
Qed.

Lemma sort_desc_perm (l : list T) : Permutation (sort l) l.
Proof.
  induction l as [|x l IH]; simpl; [reflexivity|].
  fold sort. fold insert. rewrite insert_desc_perm, IH. reflexivity.
Qed.

Lemma insert_desc_sorted (x : T) (l : list T) :
  Forall (fun y => present y = true) (x :: l) ->
  StronglySorted (in_order isna ltb col) l ->
  StronglySorted (in_order isna ltb col) (insert x l).
Proof.
  intros Hp Hs. inversion Hp as [|? ? Px Pl]; subst. clear Hp.
  unfold present in Px. apply negb_true_iff in Px.
  induction Hs as [|y l Hs IH Hy]; simpl.
  - repeat constructor.
  - inversion Pl as [|? ? Py Pl']; subst.
    unfold present in Py. apply negb_true_iff in Py.
    destruct (ltb (col x) (col y)) eqn:E.
    + constructor; [apply IH; assumption|].
      fold insert. rewrite insert_desc_perm.
      constructor; [|assumption].
      split; [apply ltb_asym; assumption | congruence].
    + constructor; [constructor; assumption|].
      constructor; [split; [assumption | congruence]|].
      eapply Forall_impl; [|exact Hy].
      intros z [Hyz _]. split; [|congruence].
      eapply ltb_negtrans; eassumption.
Qed.

Lemma sort_desc_sorted (l : list T) :
  Forall (fun y => present y = true) l ->
  StronglySorted (in_order isna ltb col) (sort l).
Proof.
  induction 1 as [|x l Hx Hl IH]; simpl; [constructor|].
  fold sort. apply insert_desc_sorted; [|assumption].
  constructor; [assumption|]. rewrite sort_desc_perm. assumption.
Qed.

(** Inserting a row moves it past rows of strictly larger value only, so
    it overtakes no row that a predicate selects together with it. *)
Lemma insert_desc_filter (p : T -> bool) (x : T) (l : list T) :
  (p x = true ->
   forall y, In y l -> ltb (col x) (col y) = true -> p y = false) ->
  filter p (insert x l) = filter p (x :: l).
Proof.
  induction l as [|y l IH]; intros H; simpl; [reflexivity|].
  destruct (ltb (col x) (col y)) eqn:E; [|reflexivity].
  simpl. fold insert. rewrite IH by (intros Hx z Hz; apply H; [assumption | right; assumption]).
  simpl. destruct (p x) eqn:Px; [|reflexivity].
  rewrite (H eq_refl y (or_introl eq_refl) E). reflexivity.
Qed.

Lemma tied_not_overtaken (v : A) (x y : T) :
  tied isna ltb col v x = true -> ltb (col x) (col y) = true ->
  tied isna ltb col v y = false.
Proof.
  unfold tied. intros Hx Hxy.
  apply andb_prop in Hx as [Hx Hvx]. apply andb_prop in Hx as [Hx Hxv].
  apply andb_prop in Hx as [Hv Hx].
  apply negb_true_iff in Hv, Hx, Hxv, Hvx.
  rewrite Hv. simpl.
  destruct (isna (col y)); [reflexivity|]. simpl.
  destruct (ltb (col y) v); [reflexivity|]. simpl.
  destruct (ltb v (col y)) eqn:Hvy; [reflexivity|].
  rewrite (ltb_negtrans _ _ _ Hv Hxv Hvy) in Hxy. discriminate.
Qed.

Lemma sort_desc_filter_tied (v : A) (l : list T) :
  filter (tied isna ltb col v) (sort l) = filter (tied isna ltb col v) l.
Proof.
  induction l as [|x l IH]; simpl; [reflexivity|].
  fold sort. fold insert. rewrite insert_desc_filter.
  - simpl. rewrite IH. reflexivity.
  - intros Hx y _. apply tied_not_overtaken. assumption.
Qed.

(** The whole frame as [nlargest] orders it before cutting. *)
Let ordered (l : list T) : list T :=
  sort (filter present l) ++ filter (missing isna col) l.

Lemma filter_split_perm (p : T -> bool) (l : list T) :
  Permutation (filter p l ++ filter (fun x => negb (p x)) l) l.
Proof.
  induction l as [|x l IH]; simpl; [reflexivity|].
  destruct (p x); simpl.
  - constructor. assumption.
  - rewrite <- Permutation_middle. constructor. assumption.
Qed.

Lemma ordered_perm (l : list T) : Permutation (ordered l) l.
Proof.
  unfold ordered. rewrite sort_desc_perm.
  rewrite <- (filter_split_perm present l) at 3.
  apply Permutation_app_head.
  erewrite filter_ext; [reflexivity|].
  intros x. unfold present, missing. rewrite negb_involutive. reflexivity.
Qed.

Lemma missing_sorted (l : list T) :
  StronglySorted (in_order isna ltb col) (filter (missing isna col) l).
Proof.
  induction l as [|x l IH]; simpl; [constructor|].
  destruct (missing isna col x) eqn:Hx; [|assumption].
  constructor; [assumption|].
  apply Forall_forall. intros y Hy. apply filter_In in Hy as [_ Hy].
  split; [apply ltb_isna_l; assumption | intros _; assumption].
Qed.

Lemma StronglySorted_app (R : T -> T -> Prop) (l1 l2 : list T) :
  StronglySorted R l1 -> StronglySorted R l2 ->
  (forall x y, In x l1 -> In y l2 -> R x y) ->
  StronglySorted R (l1 ++ l2).
Proof.
  induction 1 as [|x l1 Hs IH Hx]; intros H2 H; simpl; [assumption|].
  constructor.
  - apply IH; [assumption|]. intros a b Ha. apply H. right. assumption.
  - apply Forall_app. split; [assumption|].
    apply Forall_forall. intros y Hy. apply H; [left; reflexivity | assumption].
Qed.

Lemma StronglySorted_app_inv (R : T -> T -> Prop) (l1 l2 : list T) :
  StronglySorted R (l1 ++ l2) ->
  StronglySorted R l1 /\ forall x y, In x l1 -> In y l2 -> R x y.
Proof.
  induction l1 as [|a l1 IH]; simpl; intros H.
  - split; [constructor | contradiction].
  - inversion H as [|? ? Hs Ha]; subst.
    destruct (IH Hs) as [Hs1 Hc]. apply Forall_app in Ha as [Ha1 Ha2].
    split; [constructor; assumption|].
    intros x y [<-|Hx] Hy; [|auto].
    rewrite Forall_forall in Ha2. auto.
Qed.

Lemma ordered_sorted (l : list T) :
  StronglySorted (in_order isna ltb col) (ordered l).
Proof.
  unfold ordered. apply StronglySorted_app.
  - apply sort_desc_sorted. apply Forall_forall.
    intros x Hx. apply filter_In in Hx. tauto.
  - apply missing_sorted.
  - intros x y Hx Hy.
    rewrite sort_desc_perm in Hx. apply filter_In in Hx as [_ Hx].
    apply filter_In in Hy as [_ Hy].
    unfold present in Hx. apply negb_true_iff in Hx. unfold missing in Hy.
    split; [apply ltb_isna_r; assumption | congruence].
Qed.

Lemma filter_nothing (p : T -> bool) (l : list T) :
  (forall x, In x l -> p x = false) -> filter p l = [].
Proof.
  induction l as [|x l IH]; intros H; simpl; [reflexivity|].
  rewrite (H x (or_introl eq_refl)). apply IH. intros y Hy. apply H. right. assumption.
Qed.

Lemma filter_implied (p q : T -> bool) (l : list T) :
  (forall x, p x = true -> q x = true) -> filter p (filter q l) = filter p l.
Proof.
  intros H. induction l as [|x l IH]; simpl; [reflexivity|].
  destruct (q x) eqn:Q; simpl; rewrite IH; [reflexivity|].
  destruct (p x) eqn:P; [|reflexivity]. rewrite (H x P) in Q. discriminate.
Qed.

Lemma ordered_filter_tied (v : A) (l : list T) :
  filter (tied isna ltb col v) (ordered l) = filter (tied isna ltb col v) l.
Proof.
  unfold ordered. rewrite filter_app, sort_desc_filter_tied.
  rewrite (filter_nothing (tied isna ltb col v) (filter (missing isna col) l)).
  - rewrite app_nil_r. apply filter_implied.
    intros x Hx. unfold tied in Hx. unfold present.
    destruct (isna v); [discriminate|]. destruct (isna (col x)); [discriminate|].
    reflexivity.
  - intros x Hx. apply filter_In in Hx as [_ Hx]. unfold missing in Hx.
    unfold tied. rewrite Hx. destruct (isna v); reflexivity.
Qed.

Lemma ordered_filter_missing (l : list T) :
  filter (missing isna col) (ordered l) = filter (missing isna col) l.
Proof.
  unfold ordered. rewrite filter_app.
  rewrite (filter_nothing (missing isna col) (sort (filter present l))).
  - simpl. apply filter_implied. auto.
  - intros x Hx. rewrite sort_desc_perm in Hx. apply filter_In in Hx as [_ Hx].
    unfold present in Hx. apply negb_true_iff in Hx. exact Hx.
Qed.

Lemma filter_firstn_prefix (p : T -> bool) (n : nat) (l : list T) :
  exists later, filter p l = filter p (firstn n l) ++ later.
Proof.
  exists (filter p (skipn n l)).
  rewrite <- filter_app, firstn_skipn. reflexivity.
Qed.

(** [nlargest] computes a stable top-[n] selection. *)
Lemma nlargest_stable_top_n (n : nat) (l : list T) :
  stable_top_n isna ltb col n l (nlargest isna ltb col n l).
Proof.
  change (nlargest isna ltb col n l) with (firstn n (ordered l)).
  assert (Hs := ordered_sorted l).
  rewrite <- (firstn_skipn n (ordered l)) in Hs.
  apply StronglySorted_app_inv in Hs as [Hs Hc].
  repeat split.
  - rewrite length_firstn, (Permutation_length (ordered_perm l)). reflexivity.
  - exact Hs.
  - exists (skipn n (ordered l)). split; [|exact Hc].
    rewrite firstn_skipn. apply ordered_perm.
  - intros v. rewrite <- (ordered_filter_tied v l). apply filter_firstn_prefix.
  - rewrite <- (ordered_filter_missing l). apply filter_firstn_prefix.
Qed.

End SelectNFacts.

Section TopNInstances.

Lemma StronglySorted_weaken {T} (R R' : T -> T -> Prop) (l : list T) :
  (forall x y, R x y -> R' x y) -> StronglySorted R l -> StronglySorted R' l.
Proof.
  intros H. induction 1 as [|x l Hs IH Hx]; constructor; [assumption|].
  eapply Forall_impl; [|exact Hx]. auto.
Qed.

(** Selections by an integer column, where no value is missing. *)
Lemma nlargest_Z_stable {T} (col : T -> Z) (n : nat) (l : list T) :
  stable_top_n Z_isna Z.ltb col n l (nlargest Z_isna Z.ltb col n l).
Proof.
  apply nlargest_stable_top_n; unfold Z_isna; try discriminate.
  - intros a b. rewrite Z.ltb_lt, Z.ltb_ge. lia.
  - intros a b c _. rewrite !Z.ltb_ge. lia.
Qed.

(** Selections by a float column. *)
Lemma nlargest_float_stable {T} (col : T -> float) (n : nat) (l : list T) :
  stable_top_n Float64.isna PrimFloat.ltb col n l
    (nlargest Float64.isna PrimFloat.ltb col n l).
Proof.
  apply nlargest_stable_top_n.
  - apply Float64Facts.ltb_asym.
  - intros a b c. apply Float64Facts.ltb_negtrans.
  - apply Float64Facts.ltb_isna_l.
  - apply Float64Facts.ltb_isna_r.
Qed.

Lemma tied_Z {T} (col : T -> Z) (v : Z) (x : T) :
  tied Z_isna Z.ltb col v x = (col x =? v)%Z.
Proof.
  unfold tied, Z_isna. simpl.
  destruct (Z.ltb_spec (col x) v), (Z.ltb_spec v (col x)), (Z.eqb_spec (col x) v);
    simpl; try reflexivity; lia.
Qed.

End TopNInstances.

(** C4.  Each top-N selection of the script ([top_reviews], [top_rated],
    [top_revenue] over the filtered subset, [top_authors] over the author
    table) is a stable top-N selection: in descending order of its metric,
    made of the rows that no row left out could precede, with the rows
    that tie on a value taken and kept in row order.  For the most
    reviewed books this reads: review counts never increase along the
    selection, and the selected rows with a given count are the first rows
    of the subset with that count, in the order of the subset.  In
    particular, of two rows tied on their review count (100, say) a top-1
    selection keeps the first. *)
Theorem top_n_ties_follow_row_order (fdf : DataFrame) :
  stable_top_n Z_isna Z.ltb reviews_count 10 fdf (top_reviews fdf)
  /\ stable_top_n Float64.isna PrimFloat.ltb Rating 10 fdf (top_rated fdf)
  /\ stable_top_n Float64.isna PrimFloat.ltb Estimated_Revenue 10 fdf
       (top_revenue fdf)
  /\ stable_top_n Z_isna Z.ltb Total_Reviews 15 (author_stats fdf)
       (top_authors fdf)
  /\ StronglySorted (fun x y => (reviews_count y <= reviews_count x)%Z)
       (top_reviews fdf)
  /\ (forall v : Z, exists later,
         filter (fun r => (reviews_count r =? v)%Z) fdf
         = filter (fun r => (reviews_count r =? v)%Z) (top_reviews fdf) ++ later)
  /\ (forall (v : Z) (a b : row),
         reviews_count a = v -> reviews_count b = v ->
         nlargest Z_isna Z.ltb reviews_count 1 [a; b] = [a]).
Proof.
  assert (H := nlargest_Z_stable reviews_count 10 fdf).
  split; [exact H|].
  split; [apply nlargest_float_stable|].
  split; [apply nlargest_float_stable|].
  split; [apply nlargest_Z_stable|].
  destruct H as (_ & Hs & _ & Ht & _).
  split; [|split].
  - eapply StronglySorted_weaken; [|exact Hs].
    intros x y [Hxy _]. apply Z.ltb_ge in Hxy. exact Hxy.
  - intros v. destruct (Ht v) as [later Hl]. exists later.
    rewrite !(filter_ext _ _ (tied_Z reviews_count v)) in Hl.
    exact Hl.
  - intros v a b Ha Hb. unfold nlargest, Z_isna. simpl.
    rewrite Ha, Hb, Z.ltb_irrefl. reflexivity.
Qed.

Lemma top_n_ties_follow_row_order_witness :
  exists a b : row,
    Examples.frame_of Examples.two_tied = [a; b]
    /\ reviews_count a = 100%Z /\ reviews_count b = 100%Z
    /\ Book_name a = Some "First"%string
    /\ nlargest Z_isna Z.ltb reviews_count 1 [a; b] = [a].
Proof.
  eexists. eexists.
  split; [reflexivity|]. split; [reflexivity|]. split; [reflexivity|].
  split; [reflexivity|].
  apply (proj2 (proj2 (proj2 (proj2 (proj2 (proj2
           (top_n_ties_follow_row_order [])))))) 100%Z); reflexivity.
Defined.

(* ================================================================== *)
(** * Grouped aggregates *)

Section GroupByFacts.

Variable K : Type.
Variable K_eqb : K -> K -> bool.
Variable K_ltb : K -> K -> bool.
Variable key : row -> option K.

Hypothesis K_eqb_eq : forall a b, K_eqb a b = true <-> a = b.
Hypothesis K_ltb_irrefl : forall a, K_ltb a a = false.
Hypothesis K_ltb_trans :
  forall a b c, K_ltb a b = true -> K_ltb b c = true -> K_ltb a c = true.
Hypothesis K_ltb_total :
  forall a b, K_eqb a b = false -> K_ltb a b = false -> K_ltb b a = true.

Let lt (a b : K) : Prop := K_ltb a b = true.
Let insert := insert_key K_eqb K_ltb.
Let keys := group_keys K_eqb K_ltb key.

Lemma insert_key_In (k x : K) (l : list K) :
  In x (insert k l) <-> x = k \/ In x l.
Proof.
  induction l as [|k' l IH]; simpl; [intuition congruence|].
  destruct (K_eqb k k') eqn:E.
  - apply K_eqb_eq in E. subst k'. simpl. intuition congruence.
  - destruct (K_ltb k k'); simpl; [intuition congruence|].
    fold insert. rewrite IH. intuition congruence.
Qed.

Lemma insert_key_sorted (k : K) (l : list K) :
  StronglySorted lt l -> StronglySorted lt (insert k l).
Proof.
  induction 1 as [|k' l Hs IH Hk']; simpl; [repeat constructor|].
  destruct (K_eqb k k') eqn:E; [constructor; assumption|].
  destruct (K_ltb k k') eqn:L.
  - constructor; [constructor; assumption|].
    constructor; [exact L|].
    eapply Forall_impl; [|exact Hk']. intros x Hx. eapply K_ltb_trans; eassumption.
  - constructor; [exact IH|].
    apply Forall_forall. intros x Hx. apply insert_key_In in Hx as [->|Hx].
    + apply K_ltb_total; assumption.
    + rewrite Forall_forall in Hk'. auto.
Qed.

Lemma group_keys_sorted (df : DataFrame) : StronglySorted lt (keys df).
Proof.
  induction df as [|r df IH]; simpl; [constructor|].
  destruct (key r); [apply insert_key_sorted|]; assumption.
Qed.

Lemma sorted_NoDup (l : list K) : StronglySorted lt l -> NoDup l.
Proof.
  induction 1 as [|k l Hs IH Hk]; constructor; [|assumption].
  intros Hin. rewrite Forall_forall in Hk. specialize (Hk k Hin).
  unfold lt in Hk. rewrite K_ltb_irrefl in Hk. discriminate.
Qed.

Lemma group_keys_In (df : DataFrame) (k : K) :
  In k (keys df) <-> exists r, In r df /\ key r = Some k.
Proof.
  induction df as [|r df IH]; simpl.
  - split; [contradiction | intros (r & [] & _)].
  - destruct (key r) as [k'|] eqn:E.
    + fold insert. rewrite insert_key_In. fold (keys df). rewrite IH. split.
      * intros [->|(x & Hx & Hk)]; eauto.
      * intros (x & [<-|Hx] & Hk); [left; congruence | eauto].
    + fold (keys df). rewrite IH. split.
      * intros (x & Hx & Hk); eauto.
      * intros (x & [<-|Hx] & Hk); [congruence | eauto].
Qed.

Let grp := group K_eqb key.

(** Over keys that are pairwise distinct, the groups weigh together what
    the rows whose key is one of them weigh. *)
Lemma groups_weight (w : row -> Z) (ks : list K) (df : DataFrame) :
  NoDup ks ->
  fold_right Z.add 0%Z (map (fun k => weight w (grp df k)) ks)
  = weight w (filter (fun r => match key r with
                               | Some k => existsb (K_eqb k) ks
                               | None => false
                               end) df).
Proof.
  induction 1 as [|k ks Hk Hnd IH]; simpl.
  - unfold weight. rewrite (filter_ext _ (fun _ => false)).
    + induction df; simpl; auto.
    + intros r. destruct (key r); reflexivity.
  - rewrite IH. clear IH. unfold grp, group, weight.
    induction df as [|r df IHdf]; simpl; [reflexivity|].
    destruct (key r) as [k'|] eqn:E; [|exact IHdf].
    destruct (K_eqb k' k) eqn:Ek; simpl.
    + apply K_eqb_eq in Ek. subst k'.
      replace (existsb (K_eqb k) ks) with false.
      * rewrite <- IHdf. lia.
      * symmetry. apply not_true_is_false. intros Hex.
        apply existsb_exists in Hex as (x & Hx & Hkx).
        apply K_eqb_eq in Hkx. subst x. contradiction.
    + destruct (existsb (K_eqb k') ks); simpl; rewrite <- IHdf; lia.
Qed.

(** The groups partition the rows whose key is present. *)
Lemma groupby_weight (w : row -> Z) (df : DataFrame) :
  fold_right Z.add 0%Z
    (map (fun g => weight w (snd g)) (groupby K_eqb K_ltb key df))
  = weight w (filter (fun r => cell_notna (key r)) df).
Proof.
  unfold groupby. rewrite map_map. simpl.
  fold grp. fold (keys df).
  rewrite groups_weight by (apply sorted_NoDup, group_keys_sorted).
  f_equal. apply filter_ext_in. intros r Hr.
  destruct (key r) as [k|] eqn:E; [|reflexivity].
  simpl. apply existsb_exists. exists k. split; [|apply K_eqb_eq; reflexivity].
  apply group_keys_In. eauto.
Qed.

End GroupByFacts.

Section StringKeys.

Lemma string_ltb_irrefl (a : string) : String.ltb a a = false.
Proof.
  unfold String.ltb.
  assert (H := String.compare_antisym a a).
  destruct (String.compare a a); try reflexivity; discriminate.
Qed.

Lemma string_ltb_trans (a b c : string) :
  String.ltb a b = true -> String.ltb b c = true -> String.ltb a c = true.
Proof.
  unfold String.ltb. intros Hab Hbc.
  assert (Lab : String.compare a b = Lt)
    by (destruct (String.compare a b); congruence).
  assert (Lbc : String.compare b c = Lt)
    by (destruct (String.compare b c); congruence).
  apply String_as_OT.cmp_lt in Lab, Lbc.
  assert (Lac := String_as_OT.lt_trans _ _ _ Lab Lbc).
  apply String_as_OT.cmp_lt in Lac.
  unfold String_as_OT.cmp in Lac. rewrite Lac. reflexivity.
Qed.

Lemma string_ltb_total (a b : string) :
  String.eqb a b = false -> String.ltb a b = false -> String.ltb b a = true.
Proof.
  unfold String.ltb. intros Hne Hlt.
  rewrite (String.compare_antisym b a).
  destruct (String.compare a b) eqn:E; simpl; try congruence.
  apply String.compare_eq_iff in E. apply String.eqb_neq in Hne. contradiction.
Qed.

Lemma count_weight {A} (cell : row -> option A) (l : DataFrame) :
  count (map cell l) = weight (counted cell) l.
Proof.
  unfold count, weight, counted.
  induction l as [|r l IH]; [reflexivity|].
  cbn [map filter fold_right].
  destruct (cell_notna (cell r)); cbn [List.length];
    [rewrite Nat2Z.inj_succ|]; lia.
Qed.

(** The book counts of the genre table add up to the number of rows that
    have both a genre and a book name. *)
Lemma genre_book_counts (fdf : DataFrame) :
  total_Book_Count (genre_stats fdf)
  = count (map Book_name (filter (fun r => cell_notna (Genre r)) fdf)).
Proof.
  unfold total_Book_Count, genre_stats. rewrite map_map. simpl.
  rewrite count_weight.
  rewrite <- (groupby_weight string String.eqb String.ltb Genre
                String.eqb_eq string_ltb_irrefl string_ltb_trans
                string_ltb_total).
  f_equal. apply map_ext. intros g. apply count_weight.
Qed.

Lemma filter_all {A} (p : A -> bool) (l : list A) :
  Forall (fun x => p x = true) l -> filter p l = l.
Proof.
  induction 1 as [|x l Hx _ IH]; simpl; [reflexivity|].
  rewrite Hx, IH. reflexivity.
Qed.

End StringKeys.

(** Over a filtered subset the book counts of the genre table add up to
    the number of its rows that have a book name; that is the number of
    its rows when no book name is missing. *)
Theorem genre_book_counts_of_filtered (df : DataFrame) (sel : selection) :
  total_Book_Count (genre_stats (filtered_df df sel))
  = count (map Book_name (filtered_df df sel))
  /\ (Forall (fun r => cell_notna (Book_name r) = true) (filtered_df df sel) ->
      total_Book_Count (genre_stats (filtered_df df sel))
      = Z.of_nat (List.length (filtered_df df sel))).
Proof.
  assert (H : total_Book_Count (genre_stats (filtered_df df sel))
              = count (map Book_name (filtered_df df sel))).
  { rewrite genre_book_counts, filter_all; [reflexivity|].
    apply Forall_forall. intros r Hr.
    apply filtered_df_fields_present in Hr. tauto. }
  split; [exact H|].
  intros Hn. rewrite H. unfold count. rewrite filter_all, length_map.
  - reflexivity.
  - apply Forall_forall. intros c Hc. apply in_map_iff in Hc as (r & <- & Hr).
    rewrite Forall_forall in Hn. auto.
Qed.

(** C3, on the code.  Six fiction books at six prices are loaded, the
    least reviewed one without a book name, and the sidebar is left as it
    comes up: its price slider runs from 10 to 15 and all six rows pass.
    The KPI counts six books; the genre table counts five, the ["count"]
    of the ["Book name"] column skipping the missing name: the per-genre
    counts do not add up to the number of rows.  The five detail cards
    are those of the named books. *)
Theorem genre_counts_miss_a_nameless_book :
  load_data Examples.log1p_example Examples.iso_date (Some Examples.six_fiction)
  = Returned (Some (Examples.frame_of Examples.six_fiction))
  /\ exists sel,
       default_selection (Examples.frame_of Examples.six_fiction) = Some sel
       /\ price_range sel = (10%float, 15%float)
       /\ List.length (filtered_df (Examples.frame_of Examples.six_fiction) sel)
          = 6%nat
       /\ total_books
            (kpis (filtered_df (Examples.frame_of Examples.six_fiction) sel))
          = 6%Z
       /\ map (fun s => (group_key s, Book_Count s))
            (genre_stats
               (filtered_df (Examples.frame_of Examples.six_fiction) sel))
          = [("Fiction"%string, 5%Z)]
       /\ total_Book_Count
            (genre_stats
               (filtered_df (Examples.frame_of Examples.six_fiction) sel))
          = 5%Z
       /\ detail_titles
            (filtered_df (Examples.frame_of Examples.six_fiction) sel)
          = (["**One...**"; "**Two...**"; "**Three...**"; "**Four...**";
              "**Five...**"]%string, false).
Proof.
  split; [reflexivity|].
  eexists. split; [reflexivity|]. repeat split.
Qed.

(* ================================================================== *)
(** * More on the loader *)

Section LoaderColumns.

Variable log1p : float -> float.
Variable to_datetime_cell : list (option string) -> string -> option Timestamp.

Lemma rank_cell_in_range (r : raw_row) (k : Z) :
  rank_cell r = Returned k ->
  Int64.in_range k = true
  /\ exists s, raw_id r = Text s /\ Py.int_of_str (Py.remove_hash s) = Some k.
Proof.
  unfold rank_cell, astype_int_cell, str_replace_hash.
  destruct (raw_id r) as [|s|x]; simpl; try discriminate.
  destruct (Py.int_of_str (Py.remove_hash s)) as [z|] eqn:Ez; [|discriminate].
  destruct (Int64.in_range z) eqn:E; [|discriminate].
  intros H. inversion H; subst. split; eauto.
Qed.

Lemma Forall2_length_eq {X Y} (R : X -> Y -> Prop) (l : list X) (l' : list Y) :
  Forall2 R l l' -> List.length l' = List.length l.
Proof. induction 1; simpl; congruence. Qed.

End LoaderColumns.

(** The load keeps every line: the frame has one row per line, in the
    order of the file; the text columns, the review count and the print
    length pass through unchanged; the rank is the integer read off the
    identifier without its hash signs and fits in 64 bits; the estimated
    revenue is the product of the cleaned price and the review count, the
    popularity score that of the cleaned rating and [log1p] of the review
    count. *)
Theorem load_keeps_every_line
    (log1p : float -> float)
    (to_datetime_cell : list (option string) -> string -> option Timestamp)
    (raw : list raw_row) (df : DataFrame) :
  load_data log1p to_datetime_cell (Some raw) = Returned (Some df) ->
  List.length df = List.length raw
  /\ Forall2
       (fun (r : raw_row) (x : row) =>
          id x = raw_id r /\ Book_name x = raw_Book_name r
          /\ Author x = raw_Author r /\ Genre x = raw_Genre r
          /\ form x = raw_form r /\ reviews_count x = raw_reviews_count r
          /\ Print_Length x = raw_Print_Length r
          /\ Int64.in_range (Rank x) = true
          /\ (exists s, raw_id r = Text s
                        /\ Py.int_of_str (Py.remove_hash s) = Some (Rank x))
          /\ Estimated_Revenue x
             = (price x * Float64.of_Z (reviews_count x))%float
          /\ Popularity_Score x
             = (Rating x * log1p (Float64.of_Z (reviews_count x)))%float)
       raw df.
Proof.
  intros H. apply load_data_rows in H.
  split; [eapply Forall2_length_eq; eassumption|].
  eapply Forall2_impl; [|exact H].
  intros r x (ra & p & k & _ & _ & Hk & ->). simpl.
  apply rank_cell_in_range in Hk as [Hr Hs].
  repeat split; assumption.
Qed.

Lemma load_keeps_every_line_witness :
  List.length (Examples.frame_of [Examples.raw3; Examples.raw_unrated]) = 2%nat
  /\ Forall2
       (fun (r : raw_row) (x : row) =>
          id x = raw_id r /\ Book_name x = raw_Book_name r
          /\ Author x = raw_Author r /\ Genre x = raw_Genre r
          /\ form x = raw_form r /\ reviews_count x = raw_reviews_count r
          /\ Print_Length x = raw_Print_Length r
          /\ Int64.in_range (Rank x) = true
          /\ (exists s, raw_id r = Text s
                        /\ Py.int_of_str (Py.remove_hash s) = Some (Rank x))
          /\ Estimated_Revenue x
             = (price x * Float64.of_Z (reviews_count x))%float
          /\ Popularity_Score x
             = (Rating x
                * Examples.log1p_example (Float64.of_Z (reviews_count x)))%float)
       [Examples.raw3; Examples.raw_unrated]
       (Examples.frame_of [Examples.raw3; Examples.raw_unrated]).
Proof.
  apply (load_keeps_every_line Examples.log1p_example Examples.iso_date
           [Examples.raw3; Examples.raw_unrated]
           (Examples.frame_of [Examples.raw3; Examples.raw_unrated])).
  reflexivity.
Defined.

Section MissingValues.

Variable log1p : float -> float.
Variable to_datetime_cell : list (option string) -> string -> option Timestamp.

Lemma has_dot_app (s t : string) :
  has_dot (s ++ t) = has_dot s || has_dot t.
Proof.
  induction s as [|c s IH]; simpl; [reflexivity|].
  rewrite IH, orb_assoc. reflexivity.
Qed.

Lemma match_decimal_here_no_dot (s : string) :
  has_dot s = false -> Py.match_decimal_here s = None.
Proof.
  intros H. unfold Py.match_decimal_here.
  destruct (Py.span_digits s) as [d r] eqn:E.
  destruct (PyFacts.span_digits_spec _ _ _ E) as (-> & _ & _).
  rewrite has_dot_app in H. apply orb_false_elim in H as [_ Hr].
  destruct d as [|c d]; [reflexivity|].
  destruct r as [|a r]; [reflexivity|].
  simpl in Hr. apply orb_false_elim in Hr as [Ha _].
  apply Ascii.eqb_neq in Ha.
  destruct a as [[] [] [] [] [] [] [] []]; try reflexivity.
  congruence.
Qed.

Lemma search_decimal_no_dot (s : string) :
  has_dot s = false -> Py.search_decimal s = None.
Proof.
  induction s as [|c s IH]; intros H; rewrite PyFacts.search_decimal_unfold;
    rewrite match_decimal_here_no_dot by assumption; [reflexivity|].
  simpl in H. apply orb_false_elim in H as [_ H]. auto.
Qed.

Lemma rating_without_point_nan (r : raw_row) (x : float) :
  rating_without_point r -> rating_cell r = Returned x -> x = nan.
Proof.
  unfold rating_cell, str_extract_decimal.
  intros [H|(s & H & Hs)].
  - destruct (raw_Rating r); try discriminate; simpl; congruence.
  - rewrite H, search_decimal_no_dot by assumption. simpl. congruence.
Qed.

Lemma price_missing_nan (r : raw_row) (x : float) :
  raw_price r = Missing -> price_cell r = Returned x -> x = nan.
Proof. unfold price_cell. intros ->. simpl. congruence. Qed.

Lemma mul_nan_l (y : float) : Float64.isna (nan * y)%float = true.
Proof.
  apply Float64Facts.isna_spec. rewrite mul_spec.
  change (Prim2SF nan) with S754_nan. reflexivity.
Qed.

End MissingValues.

(** In every frame the load returns, the row of a line whose rating cell
    is not text or has no decimal point (as in ["5 out of 5 stars"]) has a
    missing rating and a missing popularity score, and the row of a line
    whose price cell is missing has a missing price and a missing
    estimated revenue; the row of such a line is in no filtered subset,
    whatever the selection. *)
Theorem lines_without_rating_or_price_are_never_shown
    (log1p : float -> float)
    (to_datetime_cell : list (option string) -> string -> option Timestamp)
    (raw : list raw_row) (df : DataFrame) :
  load_data log1p to_datetime_cell (Some raw) = Returned (Some df) ->
  Forall2
    (fun (r : raw_row) (x : row) =>
       (rating_without_point r ->
        Float64.isna (Rating x) = true
        /\ Float64.isna (Popularity_Score x) = true
        /\ forall sel, ~ In x (filtered_df df sel))
       /\ (raw_price r = Missing ->
           Float64.isna (price x) = true
           /\ Float64.isna (Estimated_Revenue x) = true
           /\ forall sel, ~ In x (filtered_df df sel)))
    raw df.
Proof.
  intros H. apply load_data_rows in H.
  eapply Forall2_impl; [|exact H].
  intros r x (ra & p & k & Hra & Hp & _ & ->). simpl. split.
  - intros Hr. rewrite (rating_without_point_nan r ra Hr Hra).
    split; [reflexivity|]. split; [apply mul_nan_l|].
    intros sel Hin. apply filtered_df_fields_present in Hin.
    simpl in Hin. destruct Hin as (_ & _ & Hn & _). discriminate.
  - intros Hr. rewrite (price_missing_nan r p Hr Hp).
    split; [reflexivity|]. split; [apply mul_nan_l|].
    intros sel Hin. apply filtered_df_fields_present in Hin.
    simpl in Hin. destruct Hin as (_ & _ & _ & Hn). discriminate.
Qed.

Lemma lines_without_rating_or_price_are_never_shown_witness :
  Forall2
    (fun (r : raw_row) (x : row) =>
       (rating_without_point r ->
        Float64.isna (Rating x) = true
        /\ Float64.isna (Popularity_Score x) = true
        /\ forall sel,
             ~ In x (filtered_df
                       (Examples.frame_of [Examples.raw3; Examples.raw_unrated])
                       sel))
       /\ (raw_price r = Missing ->
           Float64.isna (price x) = true
           /\ Float64.isna (Estimated_Revenue x) = true
           /\ forall sel,
                ~ In x (filtered_df
                          (Examples.frame_of [Examples.raw3; Examples.raw_unrated])
                          sel)))
    [Examples.raw3; Examples.raw_unrated]
    (Examples.frame_of [Examples.raw3; Examples.raw_unrated]).
Proof.
  apply (lines_without_rating_or_price_are_never_shown
           Examples.log1p_example Examples.iso_date
           [Examples.raw3; Examples.raw_unrated]
           (Examples.frame_of [Examples.raw3; Examples.raw_unrated])).
  reflexivity.
Defined.

(* ================================================================== *)
(** * More on the filters *)

Module Float64Order.

Import Float64Facts.















End Float64Order.

Section SliderBounds.

Import Float64Order.

Let lower (m y : float) : float := if (y <? m)%float then y else m.










End SliderBounds.

Section Composition.

Lemma filter_idem {A} (p : A -> bool) (l : list A) :
  filter p (filter p l) = filter p l.
Proof.
  rewrite filter_filter. apply filter_ext. intros x. destruct (p x); reflexivity.
Qed.

Lemma filter_comm {A} (p q : A -> bool) (l : list A) :
  filter p (filter q l) = filter q (filter p l).
Proof.
  rewrite !filter_filter. apply filter_ext. intros x. apply andb_comm.
Qed.

End Composition.

(** Filtering composes: filtering a filtered subset again by the same
    selection changes nothing, filtering by two selections one after the
    other gives the same subset in either order, and that subset is made
    of the rows that pass both. *)
Theorem filtering_composes (df : DataFrame) (sel1 sel2 : selection) :
  filtered_df (filtered_df df sel1) sel1 = filtered_df df sel1
  /\ filtered_df (filtered_df df sel1) sel2
     = filtered_df (filtered_df df sel2) sel1
  /\ (forall r, In r (filtered_df (filtered_df df sel1) sel2)
                <-> In r (filtered_df df sel1) /\ In r (filtered_df df sel2)).
Proof.
  rewrite !filtered_df_passes. split; [apply filter_idem|].
  split; [apply filter_comm|].
  intros r. rewrite !filter_In. tauto.
Qed.

(** A genre selection that is empty, or that holds ["All Genres"] beside
    names, filters like ["All Genres"] alone: the names are ignored.
    The same goes for authors. *)
Theorem sentinel_overrides_names (df : DataFrame) (sel : selection) :
  (all_selected "All Genres" (genre_filter sel) = true ->
   filtered_df df sel = filtered_df df (with_genres sel ["All Genres"%string]))
  /\ (all_selected "All Authors" (author_filter sel) = true ->
      filtered_df df sel
      = filtered_df df (with_authors sel ["All Authors"%string])).
Proof.
  split; intros H; rewrite !filtered_df_passes; apply filter_ext; intros r;
    unfold passes, genre_mask, author_mask; simpl; rewrite H; reflexivity.
Qed.

Lemma sentinel_overrides_names_witness :
  filtered_df (Examples.frame_of [Examples.raw3; Examples.raw_poetry])
    (Examples.select ["Poetry"; "All Genres"]%string 0)
  = filtered_df (Examples.frame_of [Examples.raw3; Examples.raw_poetry])
      (with_genres (Examples.select ["Poetry"; "All Genres"]%string 0)
         ["All Genres"%string])
  /\ List.length
       (filtered_df (Examples.frame_of [Examples.raw3; Examples.raw_poetry])
          (Examples.select ["Poetry"; "All Genres"]%string 0)) = 2%nat.
Proof.
  split; [|reflexivity].
  apply (proj1 (sentinel_overrides_names
                  (Examples.frame_of [Examples.raw3; Examples.raw_poetry])
                  (Examples.select ["Poetry"; "All Genres"]%string 0))).
  reflexivity.
Defined.

(* ================================================================== *)
(** * More on the aggregate tables *)

Section TableKeys.

Lemma Z_ltb_trans (a b c : Z) :
  Z.ltb a b = true -> Z.ltb b c = true -> Z.ltb a c = true.
Proof. rewrite !Z.ltb_lt. lia. Qed.

Lemma Z_ltb_total (a b : Z) :
  Z.eqb a b = false -> Z.ltb a b = false -> Z.ltb b a = true.
Proof. rewrite Z.eqb_neq, Z.ltb_ge, Z.ltb_lt. lia. Qed.

Lemma agg_stats_keys (key : row -> option string) (fdf : DataFrame) :
  map group_key (map agg_stats (groupby String.eqb String.ltb key fdf))
  = group_keys String.eqb String.ltb key fdf.
Proof.
  unfold groupby. rewrite !map_map. simpl. apply map_id.
Qed.

Lemma string_keys_sorted (key : row -> option string) (fdf : DataFrame) :
  StronglySorted (fun a b => String.ltb a b = true)
    (group_keys String.eqb String.ltb key fdf).
Proof.
  apply (group_keys_sorted string String.eqb String.ltb key String.eqb_eq
           string_ltb_trans string_ltb_total).
Qed.

Lemma group_cell_notna {K} (K_eqb : K -> K -> bool) (key : row -> option K)
    (df : DataFrame) (k : K) (r : row) :
  In r (group K_eqb key df k) -> cell_notna (key r) = true.
Proof.
  unfold group. intros H. apply filter_In in H as [_ H].
  destruct (key r); [reflexivity | discriminate].
Qed.

End TableKeys.

(** The genre table and the author table have one row per genre (author)
    that occurs in the subset they are computed from: their keys are in
    strictly ascending order, hence distinct, and a name is a key exactly
    when some row of the subset bears it.  Rows without a genre (author)
    belong to no group. *)
Theorem one_table_row_per_name (fdf : DataFrame) :
  StronglySorted (fun a b => String.ltb a b = true)
    (map group_key (genre_stats fdf))
  /\ NoDup (map group_key (genre_stats fdf))
  /\ (forall k, In k (map group_key (genre_stats fdf))
                <-> exists r, In r fdf /\ Genre r = Some k)
  /\ StronglySorted (fun a b => String.ltb a b = true)
       (map group_key (author_stats fdf))
  /\ NoDup (map group_key (author_stats fdf))
  /\ (forall k, In k (map group_key (author_stats fdf))
                <-> exists r, In r fdf /\ Author r = Some k).
Proof.
  unfold genre_stats, author_stats. rewrite !agg_stats_keys.
  repeat split;
    try apply string_keys_sorted;
    try (apply (sorted_NoDup string String.ltb string_ltb_irrefl);
         apply string_keys_sorted);
    try (apply (group_keys_In string String.eqb String.ltb _ String.eqb_eq)).
Qed.

(** The trend table is left out exactly when no row of the subset has a
    year.  When it is built it is not empty, its years are in strictly
    ascending order, and a year is in it exactly when some row of the
    subset was published that year. *)
Theorem yearly_trend_years (fdf : DataFrame) :
  (yearly_trend fdf = None <-> Forall (fun r => Year r = None) fdf)
  /\ (forall t, yearly_trend fdf = Some t ->
        t <> []
        /\ StronglySorted Z.lt (map y_Year t)
        /\ (forall y, In y (map y_Year t)
                      <-> exists r, In r fdf /\ Year r = Some y)).
Proof.
  assert (Hkeys : forall t, yearly_trend fdf = Some t ->
            map y_Year t = group_keys Z.eqb Z.ltb Year (trend_df fdf)).
  { unfold yearly_trend. intros t.
    destruct (trend_df fdf) as [|r0 l] eqn:E; [discriminate|].
    intros H. inversion H; subst. unfold groupby. rewrite !map_map. simpl.
    apply map_id. }
  assert (Hin : forall y,
            (exists r, In r (trend_df fdf) /\ Year r = Some y)
            <-> exists r, In r fdf /\ Year r = Some y).
  { intros y. unfold trend_df. split; intros (r & Hr & Hy); exists r.
    - apply filter_In in Hr. tauto.
    - split; [|assumption]. apply filter_In. rewrite Hy. auto. }
  split.
  - unfold yearly_trend, trend_df. split.
    + intros H. destruct (filter _ fdf) as [|r0 l] eqn:E; [|discriminate].
      apply Forall_forall. intros r Hr.
      destruct (Year r) as [y|] eqn:Ey; [|reflexivity].
      assert (Hf : In r (filter (fun r => cell_notna (Year r)) fdf))
        by (apply filter_In; rewrite Ey; auto).
      rewrite E in Hf. contradiction.
    + intros H. rewrite filter_nothing; [reflexivity|].
      rewrite Forall_forall in H. intros r Hr. rewrite (H r Hr). reflexivity.
  - intros t Ht. assert (Hk := Hkeys t Ht). rewrite Hk. repeat split.
    + intros ->. simpl in Hk.
      unfold yearly_trend in Ht.
      destruct (trend_df fdf) as [|r0 l] eqn:E; [discriminate|].
      assert (Hr0 : In r0 (trend_df fdf)) by (rewrite E; left; reflexivity).
      unfold trend_df in Hr0. apply filter_In in Hr0 as [_ Hy].
      destruct (Year r0) as [y|] eqn:Ey; [|discriminate].
      assert (Hy0 : In y (group_keys Z.eqb Z.ltb Year (r0 :: l))).
      { apply (group_keys_In Z Z.eqb Z.ltb Year Z.eqb_eq).
        exists r0. split; [left; reflexivity | assumption]. }
      rewrite <- Hk in Hy0. contradiction.
    + eapply StronglySorted_weaken;
        [|apply (group_keys_sorted Z Z.eqb Z.ltb Year Z.eqb_eq
                   Z_ltb_trans Z_ltb_total)].
      intros a b. apply Z.ltb_lt.
    + rewrite (group_keys_In Z Z.eqb Z.ltb Year Z.eqb_eq). apply Hin.
    + rewrite (group_keys_In Z Z.eqb Z.ltb Year Z.eqb_eq). apply Hin.
Qed.

Section ReviewTotals.

Lemma fold_left_add (xs : list Z) (a : Z) :
  fold_left Z.add xs a = (a + fold_right Z.add 0 xs)%Z.
Proof.
  revert a. induction xs as [|x xs IH]; intros a; simpl; [lia|].
  rewrite IH. lia.
Qed.

Lemma wrap_add_wrap (a b : Z) :
  Int64.wrap (a + Int64.wrap b) = Int64.wrap (a + b).
Proof.
  unfold Int64.wrap. f_equal.
  replace (a + ((b + 2 ^ 63) mod 2 ^ 64 - 2 ^ 63) + 2 ^ 63)%Z
    with (a + (b + 2 ^ 63) mod 2 ^ 64)%Z by lia.
  rewrite Zplus_mod_idemp_r. f_equal. lia.
Qed.

Lemma int64_sum_weight (l : DataFrame) :
  Int64.sum (map reviews_count l) = Int64.wrap (weight reviews_count l).
Proof. unfold Int64.sum, weight. rewrite fold_left_add. reflexivity. Qed.

(** The int64 sum of int64 sums is the int64 sum of all the cells. *)
Lemma int64_sum_of_sums (groups : list DataFrame) :
  Int64.sum (map (fun g => Int64.sum (map reviews_count g)) groups)
  = Int64.wrap
      (fold_right Z.add 0%Z (map (fun g => weight reviews_count g) groups)).
Proof.
  unfold Int64.sum at 1. rewrite fold_left_add. simpl.
  induction groups as [|g groups IH]; simpl; [reflexivity|].
  rewrite int64_sum_weight, Z.add_comm, wrap_add_wrap, Z.add_comm.
  match goal with
  | |- Int64.wrap (?a + ?b) = _ => rewrite <- (wrap_add_wrap a b)
  end.
  rewrite IH, wrap_add_wrap. reflexivity.
Qed.

Lemma stats_review_totals (key : row -> option string) (fdf : DataFrame) :
  Int64.sum (map Total_Reviews
               (map agg_stats (groupby String.eqb String.ltb key fdf)))
  = Int64.sum (map reviews_count (filter (fun r => cell_notna (key r)) fdf)).
Proof.
  rewrite map_map. simpl.
  rewrite <- (map_map snd (fun g => Int64.sum (map reviews_count g))).
  rewrite int64_sum_of_sums, map_map, int64_sum_weight. f_equal.
  apply (groupby_weight string String.eqb String.ltb key String.eqb_eq
           string_ltb_irrefl string_ltb_trans string_ltb_total).
Qed.

End ReviewTotals.

(** The review totals of the genre table, and those of the author table,
    add up in 64-bit arithmetic to the KPI total of reviews of the same
    filtered subset: the charts and the KPI agree. *)
Theorem review_totals_add_up_to_the_kpi (df : DataFrame) (sel : selection) :
  Int64.sum (map Total_Reviews (genre_stats (filtered_df df sel)))
  = total_reviews (kpis (filtered_df df sel))
  /\ Int64.sum (map Total_Reviews (author_stats (filtered_df df sel)))
     = total_reviews (kpis (filtered_df df sel)).
Proof.
  unfold genre_stats, author_stats. rewrite !stats_review_totals.
  split; simpl; f_equal; f_equal; apply filter_all; apply Forall_forall;
    intros r Hr; apply filtered_df_fields_present in Hr; tauto.
Qed.

(* ================================================================== *)
(** * The sidebar *)

Section UniqueFacts.

Variable A : Type.
Variable eqb : A -> A -> bool.
Hypothesis eqb_eq : forall a b, eqb a b = true <-> a = b.

Lemma existsb_eqb_In (x : A) (l : list A) :
  existsb (eqb x) l = true <-> In x l.
Proof.
  rewrite existsb_exists. split.
  - intros (y & Hy & E). apply eqb_eq in E. subst. assumption.
  - intros H. exists x. split; [assumption | apply eqb_eq; reflexivity].
Qed.

Lemma unique_from_In (seen l : list A) (x : A) :
  In x (unique_from eqb seen l) <-> In x l /\ ~ In x seen.
Proof.
  revert seen. induction l as [|y l IH]; intros seen; simpl; [tauto|].
  destruct (existsb (eqb y) seen) eqn:E.
  - apply existsb_eqb_In in E. rewrite IH. split.
    + tauto.
    + intros [[<-|H] Hn]; [contradiction | tauto].
  - assert (Hy : ~ In y seen).
    { intros H. apply existsb_eqb_In in H. congruence. }
    simpl. rewrite IH. simpl. split.
    + intros [<-|[H Hn]]; [tauto|]. split; [tauto|]. intros Hs. apply Hn. tauto.
    + intros [[<-|H] Hn]; [tauto|].
      destruct (eqb y x) eqn:Eyx.
      * apply eqb_eq in Eyx. tauto.
      * right. split; [assumption|]. intros [->|Hs]; [|contradiction].
        assert (eqb x x = true) by (apply eqb_eq; reflexivity). congruence.
Qed.

Lemma unique_from_NoDup (seen l : list A) : NoDup (unique_from eqb seen l).
Proof.
  revert seen. induction l as [|y l IH]; intros seen; simpl; [constructor|].
  destruct (existsb (eqb y) seen); [apply IH|].
  constructor; [|apply IH].
  rewrite unique_from_In. simpl. tauto.
Qed.

Lemma unique_In (l : list A) (x : A) : In x (unique eqb l) <-> In x l.
Proof. unfold unique. rewrite unique_from_In. simpl. tauto. Qed.

Lemma unique_NoDup (l : list A) : NoDup (unique eqb l).
Proof. apply unique_from_NoDup. Qed.

End UniqueFacts.

Section ColumnFacts.

Lemma dropna_In {A} (cells : list (option A)) (a : A) :
  In a (dropna cells) <-> In (Some a) cells.
Proof.
  induction cells as [|[b|] cells IH]; simpl; [tauto| |].
  - rewrite IH. split; intros [H|H]; auto; left; congruence.
  - rewrite IH. split; [auto|]. intros [H|H]; [discriminate | assumption].
Qed.

Lemma cell_same_eq (c d : option string) : cell_same c d = true <-> c = d.
Proof.
  destruct c as [s|], d as [t|]; simpl; try (split; congruence).
  rewrite String.eqb_eq. split; congruence.
Qed.

Lemma stats_length (key : row -> option string) (fdf : DataFrame) :
  List.length (map agg_stats (groupby String.eqb String.ltb key fdf))
  = List.length (group_keys String.eqb String.ltb key fdf).
Proof. unfold groupby. rewrite !length_map. reflexivity. Qed.

Lemma string_keys_NoDup (key : row -> option string) (fdf : DataFrame) :
  NoDup (group_keys String.eqb String.ltb key fdf).
Proof.
  apply (sorted_NoDup string String.ltb string_ltb_irrefl).
  apply string_keys_sorted.
Qed.

(** The keys of a table over part of a frame are among the distinct
    names of the column of the frame. *)
Lemma keys_among_names (key : row -> option string) (df fdf : DataFrame) :
  incl fdf df ->
  incl (group_keys String.eqb String.ltb key fdf)
       (unique String.eqb (dropna (map key df))).
Proof.
  intros Hi k Hk.
  apply (group_keys_In string String.eqb String.ltb key String.eqb_eq) in Hk
    as (r & Hr & Hkey).
  apply (unique_In string String.eqb String.eqb_eq). apply dropna_In.
  rewrite <- Hkey. apply in_map. auto.
Qed.

Lemma names_among_keys (key : row -> option string) (df : DataFrame) :
  incl (unique String.eqb (dropna (map key df)))
       (group_keys String.eqb String.ltb key df).
Proof.
  intros k Hk.
  apply (proj1 (unique_In string String.eqb String.eqb_eq _ _)) in Hk.
  apply (proj1 (dropna_In _ _)) in Hk.
  apply in_map_iff in Hk as (r & Hkey & Hr).
  apply (group_keys_In string String.eqb String.ltb key String.eqb_eq).
  eauto.
Qed.

Lemma table_rows_bound (key : row -> option string) (df fdf : DataFrame) :
  incl fdf df ->
  (Z.of_nat (List.length (map agg_stats (groupby String.eqb String.ltb key fdf)))
   <= nunique (map key df))%Z.
Proof.
  intros Hi. rewrite stats_length. unfold nunique. apply inj_le.
  apply NoDup_incl_length; [apply string_keys_NoDup|].
  apply keys_among_names. assumption.
Qed.

Lemma table_rows_whole (key : row -> option string) (df : DataFrame) :
  Z.of_nat (List.length (map agg_stats (groupby String.eqb String.ltb key df)))
  = nunique (map key df).
Proof.
  rewrite stats_length. unfold nunique. f_equal.
  apply Nat.le_antisymm; apply NoDup_incl_length.
  - apply string_keys_NoDup.
  - apply keys_among_names. apply incl_refl.
  - apply (unique_NoDup string String.eqb String.eqb_eq).
  - apply names_among_keys.
Qed.

End ColumnFacts.

(** The quick stats bound the tables: whatever the selection, the genre
    table has at most as many rows as the "Genres" quick stat counts, and
    the author table at most as many as "Authors"; the filtered subset
    has at most "Total Books in DB" rows.  The two counts are the numbers
    of rows of the genre and author tables of the whole frame. *)
Theorem quick_stats_bound_the_tables (df : DataFrame) (sel : selection) :
  (Z.of_nat (List.length (genre_stats (filtered_df df sel)))
   <= qs_genres (sidebar_stats df))%Z
  /\ (Z.of_nat (List.length (author_stats (filtered_df df sel)))
      <= qs_authors (sidebar_stats df))%Z
  /\ (total_books (kpis (filtered_df df sel))
      <= qs_total_books (sidebar_stats df))%Z
  /\ Z.of_nat (List.length (genre_stats df)) = qs_genres (sidebar_stats df)
  /\ Z.of_nat (List.length (author_stats df)) = qs_authors (sidebar_stats df).
Proof.
  assert (Hi : incl (filtered_df df sel) df).
  { intros r Hr. apply in_filtered_df in Hr. tauto. }
  split; [apply table_rows_bound; assumption|].
  split; [apply table_rows_bound; assumption|].
  split; [|split; apply table_rows_whole].
  simpl. apply inj_le. rewrite filtered_df_passes.
  rewrite <- (filter_true df) at 2.
  apply filter_length_le. reflexivity.
Qed.

Section SortedFacts.

Lemma perm_in_iff {A} (l l' : list A) (x : A) :
  Permutation l l' -> (In x l <-> In x l').
Proof.
  intros H. split; apply Permutation_in; [assumption | symmetry; assumption].
Qed.

Lemma string_ltb_asym (a b : string) :
  String.ltb a b = true -> String.ltb b a = false.
Proof.
  intros H. destruct (String.ltb b a) eqn:E; [|reflexivity].
  assert (X := string_ltb_trans a b a H E).
  rewrite string_ltb_irrefl in X. discriminate.
Qed.

Lemma string_ltb_negtrans (a b c : string) :
  String.ltb b a = false -> String.ltb c b = false -> String.ltb c a = false.
Proof.
  intros Hba Hcb. destruct (String.ltb c a) eqn:Hca; [|reflexivity].
  destruct (String.eqb c b) eqn:E.
  - apply String.eqb_eq in E. subst. congruence.
  - rewrite (string_ltb_trans b c a (string_ltb_total c b E Hcb) Hca) in Hba.
    discriminate.
Qed.

Lemma sorted_strict {A} (R : A -> A -> Prop) (l : list A) :
  StronglySorted R l -> NoDup l ->
  StronglySorted (fun a b => R a b /\ a <> b) l.
Proof.
  induction 1 as [|a l Hs IH Ha]; intros Hn; constructor;
    inversion Hn; subst; [auto|].
  rewrite Forall_forall in *. intros b Hb. split; [auto|].
  intros ->. contradiction.
Qed.

(** [sorted] puts distinct names in strictly ascending order. *)
Lemma sorted_by_strict (l : list string) :
  NoDup l ->
  StronglySorted (fun a b => String.ltb a b = true) (sorted_by String.ltb l).
Proof.
  intros Hn. unfold sorted_by.
  assert (Hs := sort_desc_sorted string string (fun _ => false)
                  (fun a b => String.ltb b a) (fun a => a)
                  (fun a b => string_ltb_asym b a)
                  (fun a b c _ => string_ltb_negtrans a b c) l).
  assert (Hp := sort_desc_perm string string (fun a b => String.ltb b a)
                  (fun a => a) l).
  eapply StronglySorted_weaken;
    [|apply sorted_strict;
      [apply Hs; apply Forall_forall; reflexivity
      |eapply Permutation_NoDup; [symmetry; exact Hp | exact Hn]]].
  intros a b [[Hba _] Hne]. simpl in Hba.
  apply string_ltb_total; [|assumption].
  apply String.eqb_neq. congruence.
Qed.

(** [sorted(..., reverse=True)] puts distinct years in strictly descending
    order. *)
Lemma sorted_reverse_strict (l : list Z) :
  NoDup l ->
  StronglySorted (fun a b => (b < a)%Z) (sorted_reverse_by Z.ltb l).
Proof.
  intros Hn. unfold sorted_reverse_by.
  assert (Hs := sort_desc_sorted Z Z (fun _ => false) Z.ltb (fun a => a)).
  assert (Hp := sort_desc_perm Z Z Z.ltb (fun a => a) l).
  eapply StronglySorted_weaken;
    [|apply sorted_strict;
      [apply Hs;
       [intros a b; rewrite Z.ltb_lt, Z.ltb_ge; lia
       |intros a b c _; rewrite !Z.ltb_ge; lia
       |apply Forall_forall; reflexivity]
      |eapply Permutation_NoDup; [symmetry; exact Hp | exact Hn]]].
  intros a b [[Hab _] Hne]. simpl in Hab. apply Z.ltb_ge in Hab. lia.
Qed.

(** Two lists in strictly ascending order with the same elements are the
    same list. *)
Lemma strictly_sorted_unique (l1 l2 : list string) :
  StronglySorted (fun a b => String.ltb a b = true) l1 ->
  StronglySorted (fun a b => String.ltb a b = true) l2 ->
  (forall x, In x l1 <-> In x l2) -> l1 = l2.
Proof.
  intros H1. revert l2.
  induction H1 as [|a l1 Hs1 IH Ha]; intros l2 H2 Hin.
  - destruct l2 as [|b l2]; [reflexivity|].
    destruct (proj2 (Hin b) (or_introl eq_refl)).
  - destruct H2 as [|b l2 Hs2 Hb].
    + destruct (proj1 (Hin a) (or_introl eq_refl)).
    + rewrite Forall_forall in Ha, Hb.
      assert (Hab : a = b).
      { destruct (proj1 (Hin a) (or_introl eq_refl)) as [E|Ha2]; [auto|].
        destruct (proj2 (Hin b) (or_introl eq_refl)) as [E|Hb1]; [auto|].
        assert (L1 := Ha _ Hb1). assert (L2 := Hb _ Ha2).
        rewrite (string_ltb_asym _ _ L1) in L2. discriminate. }
      subst b. f_equal. apply IH; [assumption|].
      intros x. split; intros Hx.
      * destruct (proj1 (Hin x) (or_intror Hx)) as [<-|]; [|assumption].
        specialize (Ha _ Hx). rewrite string_ltb_irrefl in Ha. discriminate.
      * destruct (proj2 (Hin x) (or_intror Hx)) as [<-|]; [|assumption].
        specialize (Hb _ Hx). rewrite string_ltb_irrefl in Hb. discriminate.
Qed.

Lemma dropna_NoDup {A} (cells : list (option A)) :
  NoDup cells -> NoDup (dropna cells).
Proof.
  induction 1 as [|c cells Hc Hn IH]; simpl; [constructor|].
  destruct c as [a|]; [|assumption].
  constructor; [|assumption]. rewrite dropna_In. assumption.
Qed.

Lemma dropna_all_present {A} (cells : list (option A)) :
  forallb cell_notna cells = true -> map Some (dropna cells) = cells.
Proof.
  induction cells as [|[a|] cells IH]; simpl; [reflexivity| |discriminate].
  intros H. rewrite IH by assumption. reflexivity.
Qed.

(** The sorted distinct names of a column are the keys of its table. *)
Lemma sorted_names_are_keys (key : row -> option string) (df : DataFrame) :
  sorted_by String.ltb (dropna (unique cell_same (map key df)))
  = group_keys String.eqb String.ltb key df.
Proof.
  apply strictly_sorted_unique.
  - apply sorted_by_strict, dropna_NoDup.
    apply (unique_NoDup _ cell_same cell_same_eq).
  - apply string_keys_sorted.
  - intros k. unfold sorted_by.
    rewrite (perm_in_iff _ _ _ (sort_desc_perm _ _ _ _ _)).
    rewrite dropna_In, (unique_In _ cell_same cell_same_eq).
    rewrite (group_keys_In string String.eqb String.ltb key String.eqb_eq).
    rewrite in_map_iff. split; intros (r & H1 & H2); eauto.
Qed.

Lemma forallb_false {A} (p : A -> bool) (l : list A) :
  forallb p l = false <-> exists x, In x l /\ p x = false.
Proof.
  induction l as [|a l IH]; simpl.
  - split; [discriminate | intros (x & [] & _)].
  - rewrite andb_false_iff, IH. split.
    + intros [H|(x & Hx & Hp)]; eauto.
    + intros (x & [<-|Hx] & Hp); eauto.
Qed.

(** [sorted] raises exactly on a column with both a missing and a present
    cell. *)
Lemma sorted_unique_None (cells : list (option string)) :
  sorted_cells (unique cell_same cells) = None
  <-> In None cells /\ exists s, In (Some s) cells.
Proof.
  unfold sorted_cells.
  destruct (forallb cell_notna (unique cell_same cells)) eqn:E1.
  - split; [discriminate|]. intros [Hn _].
    rewrite forallb_forall in E1.
    apply (proj2 (unique_In _ cell_same cell_same_eq _ _)) in Hn.
    specialize (E1 _ Hn). discriminate.
  - destruct (forallb (fun c => negb (cell_notna c)) (unique cell_same cells))
      eqn:E2.
    + split; [discriminate|]. intros [_ [s Hs]].
      rewrite forallb_forall in E2.
      apply (proj2 (unique_In _ cell_same cell_same_eq _ _)) in Hs.
      specialize (E2 _ Hs). discriminate.
    + split; [intros _|reflexivity].
      apply forallb_false in E1 as (c1 & H1 & P1).
      apply forallb_false in E2 as (c2 & H2 & P2).
      apply (proj1 (unique_In _ cell_same cell_same_eq _ _)) in H1, H2.
      destruct c1; [discriminate|]. destruct c2 as [s|]; [|discriminate].
      split; eauto.
Qed.

Lemma name_options (sentinel : string) (key : row -> option string)
    (df : DataFrame) :
  let options := option_map (cons (Some sentinel))
                   (sorted_cells (unique cell_same (map key df))) in
  (options = None
   <-> (exists r, In r df /\ key r = None)
       /\ (exists r, In r df /\ key r <> None))
  /\ (Forall (fun r => key r <> None) df ->
      options = Some (Some sentinel
                        :: map Some (group_keys String.eqb String.ltb key df))).
Proof.
  simpl. split.
  - destruct (sorted_cells _) eqn:E; simpl.
    + split; [discriminate|]. intros [(r1 & Hr1 & K1) (r2 & Hr2 & K2)].
      assert (H : sorted_cells (unique cell_same (map key df)) = None).
      { apply sorted_unique_None. split.
        - rewrite <- K1. apply in_map. assumption.
        - destruct (key r2) as [s|] eqn:K; [|congruence].
          exists s. rewrite <- K. apply in_map. assumption. }
      congruence.
    + split; [intros _|reflexivity].
      apply sorted_unique_None in E as [Hn [s Hs]].
      apply in_map_iff in Hn as (r1 & K1 & Hr1).
      apply in_map_iff in Hs as (r2 & K2 & Hr2).
      split; [eauto|]. exists r2. split; [assumption | congruence].
  - intros Hall. unfold sorted_cells.
    assert (E : forallb cell_notna (unique cell_same (map key df)) = true).
    { apply forallb_forall. intros c Hc.
      apply (proj1 (unique_In _ cell_same cell_same_eq _ _)) in Hc.
      apply in_map_iff in Hc as (r & <- & Hr).
      rewrite Forall_forall in Hall. specialize (Hall r Hr).
      destruct (key r); [reflexivity | congruence]. }
    rewrite E. simpl. rewrite sorted_names_are_keys. reflexivity.
Qed.

End SortedFacts.

(** The genre options cannot be built, the call to [sorted] raising
    [TypeError], exactly when the genre column has both a missing and a
    present cell.  When no genre is missing the options are
    ["All Genres"] followed by the genres of the genre table of the whole
    frame, in the same (strictly ascending) order.  The same goes for the
    author options. *)
Theorem genre_and_author_options (df : DataFrame) :
  (genre_options df = None
   <-> (exists r, In r df /\ Genre r = None)
       /\ (exists r, In r df /\ Genre r <> None))
  /\ (Forall (fun r => Genre r <> None) df ->
      genre_options df
      = Some (Some "All Genres"%string
                :: map Some (map group_key (genre_stats df))))
  /\ (author_options df = None
      <-> (exists r, In r df /\ Author r = None)
          /\ (exists r, In r df /\ Author r <> None))
  /\ (Forall (fun r => Author r <> None) df ->
      author_options df
      = Some (Some "All Authors"%string
                :: map Some (map group_key (author_stats df)))).
Proof.
  unfold genre_stats, author_stats. rewrite !agg_stats_keys.
  destruct (name_options "All Genres" Genre df) as [G1 G2].
  destruct (name_options "All Authors" Author df) as [A1 A2].
  repeat split; try apply G1; try apply A1; auto.
Qed.

(** The years offered by the year select box are the years that occur in
    the frame, each once, the latest first. *)
Theorem year_options_latest_first (df : DataFrame) :
  StronglySorted (fun a b => (b < a)%Z) (year_options df)
  /\ (forall y, In y (year_options df)
                <-> exists r, In r df /\ Year r = Some y).
Proof.
  unfold year_options. split.
  - apply sorted_reverse_strict. apply (unique_NoDup Z Z.eqb Z.eqb_eq).
  - intros y. unfold sorted_reverse_by.
    rewrite (perm_in_iff _ _ _ (sort_desc_perm _ _ _ _ _)).
    rewrite (unique_In Z Z.eqb Z.eqb_eq), dropna_In, in_map_iff.
    split; intros (r & H1 & H2); eauto.
Qed.

(* ================================================================== *)
(** * Text shown by the widgets *)

Section DetailCards.

Lemma write_titles_raised (rows : DataFrame) :
  snd (write_titles rows) = true <-> exists r, In r rows /\ Book_name r = None.
Proof.
  induction rows as [|r rows IH]; simpl.
  - split; [discriminate | intros (r & [] & _)].
  - destruct (Book_name r) as [name|] eqn:E.
    + destruct (write_titles rows) as [titles raised]. simpl in *.
      rewrite IH. split.
      * intros (x & Hx & Hn). eauto.
      * intros (x & [<-|Hx] & Hn); [congruence | eauto].
    + simpl. split; [eauto | reflexivity].
Qed.

Lemma write_titles_all (rows : DataFrame) :
  snd (write_titles rows) = false ->
  map Some (fst (write_titles rows))
  = map (fun r => option_map
                    (fun name => ("**" ++ substring 0 40 name ++ "...**")%string)
                    (Book_name r)) rows.
Proof.
  induction rows as [|r rows IH]; simpl; [reflexivity|].
  destruct (Book_name r) as [name|]; [|discriminate].
  destruct (write_titles rows) as [titles raised]. simpl in *.
  intros H. rewrite IH by assumption. reflexivity.
Qed.

End DetailCards.

(** The detail cards are those of the five most reviewed books of the
    subset.  Writing them raises exactly when one of these five has no
    book name; otherwise there is one title per book (five, or as many as
    the subset has rows), each the first 40 characters of the name
    between ["**"] and ["...**"]. *)
Theorem detail_cards (fdf : DataFrame) :
  firstn 5 (top_reviews fdf) = nlargest Z_isna Z.ltb reviews_count 5 fdf
  /\ (snd (detail_titles fdf) = true
      <-> exists r, In r (nlargest Z_isna Z.ltb reviews_count 5 fdf)
                    /\ Book_name r = None)
  /\ (snd (detail_titles fdf) = false ->
      List.length (fst (detail_titles fdf)) = Nat.min 5 (List.length fdf)
      /\ map Some (fst (detail_titles fdf))
         = map (fun r => option_map
                           (fun name =>
                              ("**" ++ substring 0 40 name ++ "...**")%string)
                           (Book_name r))
             (nlargest Z_isna Z.ltb reviews_count 5 fdf)).
Proof.
  assert (H5 : firstn 5 (top_reviews fdf)
               = nlargest Z_isna Z.ltb reviews_count 5 fdf).
  { unfold top_reviews, nlargest. rewrite firstn_firstn. reflexivity. }
  unfold detail_titles. rewrite H5.
  split; [reflexivity|]. split; [apply write_titles_raised|].
  intros Hr. assert (Hm := write_titles_all _ Hr). split; [|exact Hm].
  apply (f_equal (@List.length _)) in Hm. rewrite !length_map in Hm.
  rewrite Hm.
  destruct (nlargest_Z_stable reviews_count 5 fdf) as [Hl _]. exact Hl.
Qed.

Section Decimal.

Import Py PyShape PyFacts.

Lemma digits_value_uint_acc (d : Decimal.uint) (p : positive) :
  digits_value (Npos p) (NilEmpty.string_of_uint d)
  = Npos (Pos.of_uint_acc d p).
Proof.
  revert p. induction d; intros p; [reflexivity|..];
    cbn [NilEmpty.string_of_uint digits_value Pos.of_uint_acc];
    rewrite <- IHd; f_equal;
    match goal with
    | |- context [digit_val ?c] =>
        let v := eval vm_compute in (digit_val c) in
        change (digit_val c) with v
    end; lia.
Qed.

Lemma digits_value_uint (d : Decimal.uint) :
  digits_value 0 (NilEmpty.string_of_uint d) = N.of_uint d.
Proof.
  unfold N.of_uint.
  induction d; simpl; try reflexivity; try exact IHd;
    apply (digits_value_uint_acc d).
Qed.

Lemma all_digits_uint (d : Decimal.uint) :
  all_digits (NilEmpty.string_of_uint d) = true.
Proof. induction d; simpl; auto. Qed.

(** The decimal digits of a number read back as the number. *)
Lemma decimal_digits_spec (n : N) :
  all_digits (decimal_digits n) = true
  /\ decimal_digits n <> EmptyString
  /\ digits_value 0 (decimal_digits n) = n.
Proof.
  unfold decimal_digits.
  assert (Hv := digits_value_uint (N.to_uint n)).
  assert (Hd := all_digits_uint (N.to_uint n)).
  rewrite Unsigned.of_to in Hv.
  unfold NilZero.string_of_uint.
  destruct (N.to_uint n) eqn:E; simpl in *;
    repeat split; try assumption; try discriminate; try reflexivity.
Qed.

Lemma take_sign_digit (c : ascii) (s : string) :
  is_digit c = true -> take_sign (String c s) = (false, String c s).
Proof. intros H. digit_cases c H; reflexivity. Qed.

(** [int] reads a run of digits, with or without a minus sign in front,
    as the number it denotes. *)
Lemma int_of_str_digits (d : string) :
  all_digits d = true -> d <> EmptyString ->
  int_of_str d = Some (Z.of_N (digits_value 0 d))
  /\ int_of_str (String "-" d) = Some (- Z.of_N (digits_value 0 d))%Z.
Proof.
  intros Hd Hne.
  assert (Hdec := all_digits_decimal_text d Hd).
  destruct d as [|c d]; [congruence|].
  assert (Hc : is_digit c = true)
    by (simpl in Hd; apply andb_prop in Hd; tauto).
  split; unfold int_of_str.
  - rewrite strip_decimal_text, take_sign_digit by assumption.
    cbv beta iota zeta.
    rewrite drop_underscores_decimal_text by assumption.
    rewrite Hd. reflexivity.
  - assert (Hs : strip (String "-" (String c d)) = String "-" (String c d)).
    { unfold strip. change (lstrip (String "-" (String c d)))
        with (String "-" (String c d)).
      change (rstrip (String "-" (String c d)))
        with (match rstrip (String c d) with
              | EmptyString => String "-" EmptyString
              | t' => String "-" t'
              end).
      rewrite rstrip_decimal_text by assumption. reflexivity. }
    rewrite Hs. change (take_sign (String "-" (String c d)))
      with (true, String c d).
    cbv beta iota zeta.
    rewrite drop_underscores_decimal_text by assumption.
    rewrite Hd. reflexivity.
Qed.

Definition kept (c : ascii) : bool :=
  negb (Ascii.eqb c "$" || Ascii.eqb c ",").

Lemma remove_dollar_comma_list (l : list ascii) :
  remove_dollar_comma (string_of_list_ascii l)
  = string_of_list_ascii (filter kept l).
Proof.
  induction l as [|c l IH]; simpl; [reflexivity|].
  unfold kept at 1.
  destruct (Ascii.eqb c "$" || Ascii.eqb c ","); simpl; rewrite IH; reflexivity.
Qed.

Lemma group3_kept (k : nat) (l : list ascii) :
  filter kept (group3 k l) = filter kept l.
Proof.
  revert k. induction l as [|c l IH]; intros k; [reflexivity|].
  destruct l as [|c' l]; [reflexivity|].
  change (group3 k (c :: c' :: l))
    with (if (k =? 2)%nat then c :: ","%char :: group3 0 (c' :: l)
          else c :: group3 (S k) (c' :: l)).
  destruct (k =? 2)%nat.
  - change (filter kept (c :: ","%char :: group3 0 (c' :: l)))
      with (if kept c then c :: filter kept (group3 0 (c' :: l))
            else filter kept (group3 0 (c' :: l))).
    rewrite IH. reflexivity.
  - change (filter kept (c :: group3 (S k) (c' :: l)))
      with (if kept c then c :: filter kept (group3 (S k) (c' :: l))
            else filter kept (group3 (S k) (c' :: l))).
    rewrite IH. reflexivity.
Qed.

Lemma digits_kept (s : string) :
  all_digits s = true ->
  filter kept (list_ascii_of_string s) = list_ascii_of_string s.
Proof.
  induction s as [|c s IH]; simpl; [reflexivity|].
  intros H. apply andb_prop in H as [Hc Hs].
  rewrite IH by assumption.
  replace (kept c) with true; [reflexivity|].
  digit_cases c Hc; reflexivity.
Qed.

(** Taking the commas out of grouped digits gives the digits back. *)
Lemma ungroup (s : string) :
  all_digits s = true ->
  remove_dollar_comma
    (string_of_list_ascii (rev (group3 0 (rev (list_ascii_of_string s)))))
  = s.
Proof.
  intros H.
  rewrite remove_dollar_comma_list, filter_rev, group3_kept, <- filter_rev.
  rewrite rev_involutive, digits_kept by assumption.
  apply string_of_list_ascii_of_string.
Qed.

End Decimal.

(** Thousands separators do not change the number: an integer written
    with [f"{n:,}"] (the KPI counts, the review counts of the table and of
    the cards) reads back, once the commas are removed as the loader
    removes them from prices, as the same integer.  The sign, when there
    is one, comes first. *)
Theorem format_thousands_reads_back (n : Z) :
  Py.int_of_str (Py.remove_dollar_comma (format_thousands n)) = Some n
  /\ ((n < 0)%Z <-> exists s, format_thousands n = String "-" s).
Proof.
  unfold format_thousands.
  destruct (decimal_digits_spec (Z.to_N (Z.abs n))) as (Hd & Hne & Hv).
  assert (Hu := ungroup _ Hd).
  destruct (int_of_str_digits _ Hd Hne) as [Hpos Hneg].
  rewrite Hv in Hpos, Hneg.
  destruct (Z.ltb_spec n 0) as [Hn|Hn].
  - split.
    + change (Py.remove_dollar_comma (String "-" ?s))
        with (String "-" (Py.remove_dollar_comma s)).
      rewrite Hu, Hneg. f_equal. lia.
    + split; [eauto | intros _; assumption].
  - split.
    + rewrite Hu, Hpos. f_equal. lia.
    + split; [lia|]. intros [s Hs]. exfalso.
      apply (f_equal Py.remove_dollar_comma) in Hs. rewrite Hu in Hs.
      change (Py.remove_dollar_comma (String "-" s))
        with (String "-" (Py.remove_dollar_comma s)) in Hs.
      rewrite Hs in Hd. discriminate.
Qed.

Section FileName.

Import Py.

Lemma digit_char_spec (n : Z) :
  is_digit (digit_char n) = true
  /\ digit_val (digit_char n) = Z.to_N (n mod 10).
Proof.
  unfold digit_char.
  assert (Hb : (0 <= n mod 10 < 10)%Z) by (apply Z.mod_pos_bound; lia).
  remember (Z.to_nat (n mod 10)) as k eqn:Hk.
  assert (Hlt : (k < 10)%nat) by lia.
  do 10 (destruct k as [|k]; [split; [reflexivity | vm_compute digit_val; lia]|]).
  lia.
Qed.

Lemma strftime_digits (t : Timestamp) :
  all_digits (strftime_Ymd t) = true
  /\ strftime_Ymd t <> EmptyString
  /\ String.length (strftime_Ymd t) = 8%nat.
Proof.
  unfold strftime_Ymd. cbn [all_digits String.length].
  repeat rewrite (proj1 (digit_char_spec _)).
  repeat split. discriminate.
Qed.

Lemma strftime_value (t : Timestamp) :
  (0 <= ts_year t <= 9999)%Z -> (0 <= ts_month t <= 99)%Z ->
  (0 <= ts_day t <= 99)%Z ->
  Z.of_N (digits_value 0 (strftime_Ymd t))
  = (ts_year t * 10000 + ts_month t * 100 + ts_day t)%Z.
Proof.
  intros Hy Hm Hd. unfold strftime_Ymd. cbn [digits_value].
  repeat rewrite (proj2 (digit_char_spec _)).
  Z.to_euclidean_division_equations. lia.
Qed.

End FileName.

(** The name offered for the download carries the date of the clock: for
    a date from the year 1000 on, the name is ["filtered_books_"], eight
    digits and [".csv"], and the eight digits read as the number
    [yyyymmdd]. *)
Theorem file_name_carries_the_date (now : Timestamp) (df : DataFrame)
    (sel : selection) :
  (1000 <= ts_year now <= 9999)%Z -> (1 <= ts_month now <= 12)%Z ->
  (1 <= ts_day now <= 31)%Z ->
  exists stamp : string,
    run_file_name (run now df sel)
    = ("filtered_books_" ++ stamp ++ ".csv")%string
    /\ String.length stamp = 8%nat
    /\ Py.all_digits stamp = true
    /\ Py.int_of_str stamp
       = Some (ts_year now * 10000 + ts_month now * 100 + ts_day now)%Z.
Proof.
  intros Hy Hm Hd. exists (strftime_Ymd now).
  destruct (strftime_digits now) as (Ha & Hne & Hl).
  split; [reflexivity|]. split; [assumption|]. split; [assumption|].
  rewrite (proj1 (int_of_str_digits _ Ha Hne)).
  rewrite strftime_value by lia. reflexivity.
Qed.

Lemma file_name_carries_the_date_witness :
  exists stamp : string,
    run_file_name (run (mkTimestamp 2026 11 4) Examples.one_book
                       Examples.all_pass)
    = ("filtered_books_" ++ stamp ++ ".csv")%string
    /\ String.length stamp = 8%nat
    /\ Py.all_digits stamp = true
    /\ Py.int_of_str stamp = Some (2026 * 10000 + 11 * 100 + 4)%Z.
Proof.
  apply (file_name_carries_the_date (mkTimestamp 2026 11 4)
           Examples.one_book Examples.all_pass); simpl; lia.
Defined.
(* ================================================================== *)
(** * The sidebar as it comes up *)

Section DefaultSelection.




End DefaultSelection.

